(** * The fuel-price panel of [src/pages/index.tsx]

    A shallow embedding of the page component [Home] and of its helpers
    [getInitialDate], [toggleShowPriceChange], [changeDate], [PriceDisplay]
    and [PriceChange], together with the part of the date-fns functions they
    call ([parse], [format], [addDays], [subDays], [isFuture]).

    Conventions of the model.
    - A JavaScript [Date] is its time value: a number of milliseconds or NaN.
      Time values are unbounded integers (the limit of 8.64e15 ms of
      ECMAScript is not modelled) counted on the local time line, the local
      zone being a fixed offset from UTC; the epoch is local midnight of
      1970-01-01.
    - Every read of the clock ([new Date()], [Date.now()]) is an explicit
      argument [clock].
    - A thrown exception is a value of [result]. *)

From Stdlib Require Import ZArith Lia Ascii String List Bool Floats.
From Stdlib Require Import Numbers.DecimalString.
From stdpp Require Import base option gmap strings list.
Import ListNotations.
Local Open Scope Z_scope.

(** ** Exceptions *)

Inductive Exception : Type :=
| RangeError (message : string)
| Error (message : string).

Inductive result (A : Type) : Type :=
| Ok (a : A)
| Throw (e : Exception).
Arguments Ok {A} a.
Arguments Throw {A} e.

(** ** The date-fns functions used by the page

    The page imports them from the date-fns package (line 1); they are
    written here after the behaviour of date-fns 2, the first version with
    [parse(dateString, formatString, referenceDate)] and [parseISO]. *)

Module DateFns.

(** The time value of a [Date]: NaN ([InvalidDate]) or milliseconds. *)
Inductive Date : Type :=
| InvalidDate
| DateAt (t : Z).

Definition msPerDay : Z := 86400000.

(** [new Date()] *)
Definition newDate (clock : Z) : Date := DateAt clock.

(** The day number of a time value: whole days since the epoch. *)
Definition dayOf (t : Z) : Z := t / msPerDay.

(** Year, month (1..12) and day of the month of a day number, in the
    proleptic Gregorian calendar: what [getFullYear], [getMonth() + 1] and
    [getDate] return. The 400-year cycle starts on 0000-03-01. *)
Definition civilOfDay (n : Z) : Z * Z * Z :=
  let z := n + 719468 in
  let era := z / 146097 in
  let doe := z mod 146097 in
  let yoe := (doe - doe / 1460 + doe / 36524 - doe / 146096) / 365 in
  let doy := doe - (365 * yoe + yoe / 4 - yoe / 100) in
  let mp := (5 * doy + 2) / 153 in
  let d := doy - (153 * mp + 2) / 5 + 1 in
  let m := if mp <? 10 then mp + 3 else mp - 9 in
  let y := yoe + era * 400 in
  (if m <=? 2 then y + 1 else y, m, d).

(** The day number of a calendar date: what [setUTCFullYear(y, m - 1, d)]
    computes. *)
Definition dayOfCivil (y m d : Z) : Z :=
  let y' := if m <=? 2 then y - 1 else y in
  let era := y' / 400 in
  let yoe := y' mod 400 in
  let mp := if 2 <? m then m - 3 else m + 9 in
  let doy := (153 * mp + 2) / 5 + d - 1 in
  let doe := yoe * 365 + yoe / 4 - yoe / 100 + doy in
  era * 146097 + doe - 719468.

Definition isLeapYearIndex (year : Z) : bool :=
  (year mod 400 =? 0) || ((year mod 4 =? 0) && negb (year mod 100 =? 0)).

Definition DAYS_IN_MONTH : list Z :=
  [31; 28; 31; 30; 31; 30; 31; 31; 30; 31; 30; 31].
Definition DAYS_IN_MONTH_LEAP_YEAR : list Z :=
  [31; 29; 31; 30; 31; 30; 31; 31; 30; 31; 30; 31].

(** [monthIndex] is zero-based, as in JavaScript. *)
Definition daysInMonth (year monthIndex : Z) : Z :=
  nth (Z.to_nat monthIndex)
      (if isLeapYearIndex year then DAYS_IN_MONTH_LEAP_YEAR else DAYS_IN_MONTH)
      0.

(** [isFuture(date)]: [date.getTime() > Date.now()]; a comparison with NaN
    is false. *)
Definition isFuture (clock : Z) (date : Date) : bool :=
  match date with
  | InvalidDate => false
  | DateAt t => clock <? t
  end.

(** [addDays(date, amount)]: [setDate(getDate() + amount)] on a copy; an
    invalid date stays invalid. *)
Definition addDays (date : Date) (amount : Z) : Date :=
  match date with
  | InvalidDate => InvalidDate
  | DateAt t => DateAt (t + amount * msPerDay)
  end.

(** [subDays(date, amount)] is [addDays(date, -amount)]. *)
Definition subDays (date : Date) (amount : Z) : Date :=
  addDays date (- amount).

(** *** Formatting with the pattern ["yyyy-MM-dd"] *)

(** [Math.abs(number).toString()] for an integer. *)
Definition toString (n : Z) : string :=
  NilZero.string_of_uint (N.to_uint (Z.to_N (Z.abs n))).

Fixpoint padStart (k : nat) (output : string) : string :=
  match k with
  | O => output
  | S k' => padStart k' (String "0" output)
  end.

(** [addLeadingZeros(number, targetLength)]: zeros are put in front while the
    output is shorter than [targetLength]; the sign comes first. *)
Definition addLeadingZeros (number : Z) (targetLength : nat) : string :=
  let sign := if number <? 0 then "-"%string else ""%string in
  let output := toString number in
  (sign +:+ padStart (targetLength - String.length output) output)%string.

(** The [y] formatter prints year [y <= 0] as [1 - y]. *)
Definition formatYear (signedYear : Z) : string :=
  addLeadingZeros (if 0 <? signedYear then signedYear else 1 - signedYear) 4.

Definition formatCivil (ymd : Z * Z * Z) : string :=
  let '(y, m, d) := ymd in
  (formatYear y +:+ "-" +:+ addLeadingZeros m 2 +:+ "-"
     +:+ addLeadingZeros d 2)%string.

(** [format(date, "yyyy-MM-dd")]; an invalid date raises a [RangeError]. *)
Definition format_yyyy_MM_dd (date : Date) : result string :=
  match date with
  | InvalidDate => Throw (RangeError "Invalid time value")
  | DateAt t => Ok (formatCivil (civilOfDay (dayOf t)))
  end.

(** *** Formatting with the pattern ["eee dd LLL yyyy"] (default locale) *)

(** [getDay()]: 0 is Sunday; the epoch was a Thursday. *)
Definition dayOfWeek (n : Z) : Z := (n + 4) mod 7.

Definition WEEKDAYS : list string :=
  ["Sun"; "Mon"; "Tue"; "Wed"; "Thu"; "Fri"; "Sat"]%string.

Definition MONTHS : list string :=
  ["Jan"; "Feb"; "Mar"; "Apr"; "May"; "Jun";
   "Jul"; "Aug"; "Sep"; "Oct"; "Nov"; "Dec"]%string.

(** [format(date, "eee dd LLL yyyy")]; an invalid date raises a
    [RangeError]. *)
Definition format_eee_dd_LLL_yyyy (date : Date) : result string :=
  match date with
  | InvalidDate => Throw (RangeError "Invalid time value")
  | DateAt t =>
      let '(y, m, d) := civilOfDay (dayOf t) in
      Ok (nth (Z.to_nat (dayOfWeek (dayOf t))) WEEKDAYS ""
          +:+ " " +:+ addLeadingZeros d 2
          +:+ " " +:+ nth (Z.to_nat (m - 1)) MONTHS ""
          +:+ " " +:+ formatYear y)%string
  end.

(** *** Parsing with the pattern ["yyyy-MM-dd"] *)

Definition isDigit (c : ascii) : bool :=
  let n := Z.of_nat (nat_of_ascii c) in (48 <=? n) && (n <=? 57).

Definition digitValue (c : ascii) : Z := Z.of_nat (nat_of_ascii c) - 48.

Fixpoint takeDigits (n : nat) (acc : Z) (s : string) : Z * string :=
  match n, s with
  | S n', String c rest =>
      if isDigit c then takeDigits n' (10 * acc + digitValue c) rest
      else (acc, s)
  | _, _ => (acc, s)
  end.

(** [parseNDigits(n, dateString)]: the longest prefix matching [^\d{1,n}],
    read as a decimal number, and the rest of the string. *)
Definition parseNDigits (n : nat) (dateString : string)
  : option (Z * string) :=
  match n, dateString with
  | S _, String c _ =>
      if isDigit c then Some (takeDigits n 0 dateString) else None
  | _, _ => None
  end.

(** A literal token of the pattern must be a prefix of the input. *)
Definition cutToken (token : ascii) (dateString : string) : option string :=
  match dateString with
  | String c rest => if Ascii.eqb c token then Some rest else None
  | EmptyString => None
  end.

Definition isWhitespace (c : ascii) : bool :=
  let n := nat_of_ascii c in
  (Nat.eqb n 32 || (Nat.leb 9 n && Nat.leb n 13))%bool.

(** What is left after the last token may only be white space. *)
Fixpoint onlyWhitespace (s : string) : bool :=
  match s with
  | EmptyString => true
  | String c rest => isWhitespace c && onlyWhitespace rest
  end.

(** The validators of the year, month and day-of-month setters. *)
Definition validCivil (year month day : Z) : bool :=
  (0 <? year)
  && ((0 <=? month - 1) && (month - 1 <=? 11))
  && ((1 <=? day) && (day <=? daysInMonth year (month - 1))).

(** [parse(dateString, "yyyy-MM-dd", referenceDate)]: local midnight of the
    day read, or an invalid date. The reference date gives only the fields
    the pattern leaves out; the year setter clears the time of day, so
    the result does not depend on it. *)
Definition parse_yyyy_MM_dd (dateString : string) (referenceDate : Date)
  : Date :=
  match parseNDigits 4 dateString with
  | None => InvalidDate
  | Some (year, s1) =>
  match cutToken "-" s1 with
  | None => InvalidDate
  | Some s2 =>
  match parseNDigits 2 s2 with
  | None => InvalidDate
  | Some (month, s3) =>
  match cutToken "-" s3 with
  | None => InvalidDate
  | Some s4 =>
  match parseNDigits 2 s4 with
  | None => InvalidDate
  | Some (day, s5) =>
      if onlyWhitespace s5 && validCivil year month day
      then DateAt (dayOfCivil year month day * msPerDay)
      else InvalidDate
  end end end end end.

End DateFns.

Import DateFns.

(** ** The data of the price service (lines 9-27) *)

(** An element of [DayPrice["prevPrices"]]; its field [price] is
    [prevPrice] here, apart from the [price] of [DayPrice]. A JavaScript
    [number] is a binary64 float; the page only stores and displays
    prices. *)
Record PrevPrice : Type := {
  detectionTimestamp : string;
  prevPrice : float;
}.

Record DayPrice : Type := {
  date : string;
  price : float;
  prevPrices : list PrevPrice;
}.

Inductive DayKind : Type := Today | Yesterday | Tomorrow.

Global Instance DayKind_eq_dec : EqDecision DayKind.
Proof. solve_decision. Defined.

Record Prices : Type := {
  today : option DayPrice;
  tomorrow : option DayPrice;
  yesterday : option DayPrice;
}.

Record PriceResponse : Type := {
  message : string;
  prices : Prices;
}.

(** What [useSWR] hands to a render: [data] and [error], each possibly
    [undefined]. *)
Record SWRResponse : Type := {
  data : option PriceResponse;
  error : option Exception;
}.

(** ** [PriceDisplay] (lines 29-54) *)

(** The rendered slot: the parts of the markup that depend on the props. *)
Record PriceDisplayView : Type := {
  pd_cursorPointer : bool;      (* "cursor-pointer" or "cursor-auto" *)
  pd_animatePulse : bool;       (* "animate-pulse" while loading *)
  pd_activeStyle : bool;        (* darker background of the active slot *)
  pd_title : string;
  pd_role : string;
  pd_day : DayKind;
  pd_marker : bool;             (* the red asterisk *)
  pd_priceText : float + string; (* followed by " kr" *)
}.

(** [(price?.prevPrices ?? []).length > 0] *)
Definition hasPriceChanged (price : option DayPrice) : bool :=
  let prev := match price with
              | Some p => prevPrices p
              | None => []
              end in
  (0 <? length prev)%nat.

Definition PriceDisplay (loading : bool) (price : option DayPrice)
    (day : DayKind) (active : bool) : PriceDisplayView :=
  let changed := hasPriceChanged price in
  {| pd_cursorPointer := changed;
     pd_animatePulse := loading;
     pd_activeStyle := active;
     pd_title := if changed then "Price has changed"%string else ""%string;
     pd_role := if changed then "button"%string else "none"%string;
     pd_day := day;
     pd_marker := changed;
     pd_priceText := match price with
                     | Some {| price := amount |} => inl amount
                     | None => inr "??.??"%string
                     end |}.

(** ** [PriceChange] (lines 56-82) *)

Record PriceChangeRow : Type := {
  row_key : string;
  row_detectedAt : string;
  row_priceBefore : float;      (* followed by " kr" *)
}.

Record PriceChangeView : Type := {
  pc_rows : list PriceChangeRow;
}.

(** ** The page component [Home] (lines 84-241) *)

(** The state cell [priceChangeState] holds [null] or this object. *)
Record PriceChangeState : Type := {
  pcs_prevPrices : list PrevPrice;
  pcs_day : DayKind;
}.

(** The argument of [changeDate]: ["left"] or ["right"]. *)
Inductive Direction : Type := DirLeft | DirRight.

(** [Appearance] comes from [./_app]; the page reads two optional
    strings of it. *)
Record Appearance : Type := {
  bgColor : option string;
  textColor : option string;
}.

(** The query object handed to [router.push]. *)
Record Query : Type := {
  q_now : string;
  q_bgColor : option string;
  q_textColor : option string;
}.

(** The three [useState] cells of [Home]. *)
Record HomeState : Type := {
  priceChangeState : option PriceChangeState;
  now : Date;
  nowParam : string;
}.

Record HomeView : Type := {
  hv_header : string;            (* the date between the two arrows *)
  hv_errorNotice : bool;        (* "An error has occurred" *)
  hv_slots : option (PriceDisplayView * PriceDisplayView * PriceDisplayView);
  hv_panel : option PriceChangeView;
}.

(** [getInitialDate] (lines 84-94). [nowQuery] is
    [queryParams.get("now")]: [None] for [null], which is also what the
    empty search string of a render without [window] gives. *)
Definition getInitialDate (nowQuery : option string) (clock : Z)
  : result Date :=
  match nowQuery with
  | Some s => Ok (parse_yyyy_MM_dd s (newDate clock))
  | None =>
      match format_yyyy_MM_dd (newDate clock) with
      | Ok s => Ok (parse_yyyy_MM_dd s (newDate clock))
      | Throw e => Throw e
      end
  end.

(** [toggleShowPriceChange] (lines 143-155). *)
Definition toggleShowPriceChange (prevPrices : list PrevPrice)
    (day : DayKind) (st : HomeState) : HomeState :=
  if decide (pcs_day <$> priceChangeState st = Some day)
  then {| priceChangeState := None;
          now := now st; nowParam := nowParam st |}
  else {| priceChangeState :=
            Some {| pcs_day := day; pcs_prevPrices := prevPrices |};
          now := now st; nowParam := nowParam st |}.

(** [changeDate] (lines 157-168). *)
Definition newNowOf (direction : Direction) (now : Date) : Date :=
  match direction with
  | DirLeft => subDays now 1
  | DirRight => addDays now 1
  end.

Definition changeDate (direction : Direction) (clock : Z) (st : HomeState)
  : HomeState :=
  let newNow := newNowOf direction (now st) in
  if negb (isFuture clock newNow)
  then {| priceChangeState := None;
          now := newNow; nowParam := nowParam st |}
  else st.

(** The click handler of [PriceDisplay] (line 45):
    [hasPriceChanged && toggleDisplayChanges()]. *)
Definition PriceDisplay_onClick (price : option DayPrice)
    (toggleDisplayChanges : HomeState -> HomeState) (st : HomeState)
  : HomeState :=
  if hasPriceChanged price then toggleDisplayChanges st else st.

(** [data?.prices?.<slot> ?? null] for the slot of [day]. *)
Definition slotPrice (data : option PriceResponse) (day : DayKind)
  : option DayPrice :=
  match data with
  | None => None
  | Some r =>
      match day with
      | Yesterday => yesterday (prices r)
      | Today => today (prices r)
      | Tomorrow => tomorrow (prices r)
      end
  end.

(** [data?.prices?.<slot>?.prevPrices ?? []] *)
Definition slotPrevPrices (data : option PriceResponse) (day : DayKind)
  : list PrevPrice :=
  match slotPrice data day with
  | Some p => prevPrices p
  | None => []
  end.

(** The [toggleDisplayChanges] prop given to the slot of [day]
    (lines 194-199, 206-211, 218-223). *)
Definition toggleDisplayChanges (data : option PriceResponse) (day : DayKind)
  : HomeState -> HomeState :=
  toggleShowPriceChange (slotPrevPrices data day) day.

(** A click on the slot of [day] as [Home] wires it. *)
Definition clickSlot (data : option PriceResponse) (day : DayKind)
    (st : HomeState) : HomeState :=
  PriceDisplay_onClick (slotPrice data day) (toggleDisplayChanges data day) st.

(** The effect on [fueltype] (lines 119-121). *)
Definition fueltypeEffect (st : HomeState) : HomeState :=
  {| priceChangeState := None; now := now st; nowParam := nowParam st |}.

(** [!value] for an optional string: [undefined] and the empty string are
    falsy. *)
Definition truthy (value : option string) : option string :=
  match value with
  | Some s => if String.eqb s "" then None else Some s
  | None => None
  end.

(** The effect on [now] (lines 123-141): the pushed query and the new state;
    [format] raises on an invalid [now]. *)
Definition nowEffect (appearance : Appearance) (st : HomeState)
  : result (Query * HomeState) :=
  match format_yyyy_MM_dd (now st) with
  | Throw e => Throw e
  | Ok newNowParam =>
      Ok ({| q_now := newNowParam;
             q_bgColor := truthy (bgColor appearance);
             q_textColor := truthy (textColor appearance) |},
          {| priceChangeState := priceChangeState st;
             now := now st; nowParam := newNowParam |})
  end.

Section Home.

(** [Fueltype] comes from [./_app], [API_URL] from [../utils/constants]. *)
Context {Fueltype : Type} `{EqDecision Fueltype}.
Variable API_URL : string.

(** [format(parseISO(timestamp), "yyyy-MM-dd HH:mm:ss")] of line 73, which
    raises on a time stamp that is not a date. *)
Variable formatTimestamp : string -> result string.

Record Props : Type := {
  fueltype : Fueltype;
  appearance : Appearance;
}.

(** The key array of [useSWR] (line 114). *)
Definition swrKey (props : Props) (st : HomeState)
  : string * string * Fueltype :=
  (API_URL, nowParam st, fueltype props).

Fixpoint PriceChange_rows (prevPrices : list PrevPrice)
  : result (list PriceChangeRow) :=
  match prevPrices with
  | [] => Ok []
  | p :: rest =>
      match formatTimestamp (detectionTimestamp p) with
      | Throw e => Throw e
      | Ok shown =>
          match PriceChange_rows rest with
          | Throw e => Throw e
          | Ok rows =>
              Ok ({| row_key := detectionTimestamp p;
                     row_detectedAt := shown;
                     row_priceBefore := prevPrice p |} :: rows)
          end
      end
  end.

(** [PriceChange]: one table row per previous price, in order. *)
Definition PriceChange (prevPrices : list PrevPrice) (day : DayKind)
  : result PriceChangeView :=
  match PriceChange_rows prevPrices with
  | Throw e => Throw e
  | Ok rows => Ok {| pc_rows := rows |}
  end.

(** [priceChangeState?.day === day] *)
Definition isActive (st : HomeState) (day : DayKind) : bool :=
  bool_decide (pcs_day <$> priceChangeState st = Some day).

(** What [Home] returns (lines 170-238). The header formats [now]
    (line 180), which raises on an invalid date. *)
Definition Home_render (swr : SWRResponse) (st : HomeState)
  : result HomeView :=
  match format_eee_dd_LLL_yyyy (now st) with
  | Throw e => Throw e
  | Ok header =>
  match error swr with
  | Some _ =>
      Ok {| hv_header := header; hv_errorNotice := true;
            hv_slots := None; hv_panel := None |}
  | None =>
      let loading := match data swr with None => true | Some _ => false end in
      let slot day :=
        PriceDisplay loading (slotPrice (data swr) day) day (isActive st day) in
      let slots := (slot Yesterday, slot Today, slot Tomorrow) in
      match priceChangeState st with
      | None =>
          Ok {| hv_header := header; hv_errorNotice := false;
                hv_slots := Some slots; hv_panel := None |}
      | Some pcs =>
          match PriceChange (pcs_prevPrices pcs) (pcs_day pcs) with
          | Throw e => Throw e
          | Ok panel =>
              Ok {| hv_header := header; hv_errorNotice := false;
                    hv_slots := Some slots; hv_panel := Some panel |}
          end
      end
  end
  end.

(** *** The page as a transition system *)

(** The mounted component: its props, its state cells, what [useSWR]
    returned last, and the [router.push] calls made so far (latest first). *)
Record Page : Type := {
  props : Props;
  hooks : HomeState;
  swr : SWRResponse;
  pushed : list Query;
}.

Inductive Event : Type :=
| Click (day : DayKind)
| ChangeDate (direction : Direction) (clock : Z)
| SetFueltype (f : Fueltype)
| SetAppearance (a : Appearance)
| SwrResult (r : SWRResponse).

(** The first render and its effects: [useState(getInitialDate())],
    [useState(format(now, "yyyy-MM-dd"))], then the two effects. *)
Definition mount (p : Props) (nowQuery : option string) (clock : Z)
  : result Page :=
  match getInitialDate nowQuery clock with
  | Throw e => Throw e
  | Ok initialDate =>
      match format_yyyy_MM_dd initialDate with
      | Throw e => Throw e
      | Ok initialParam =>
          let st := fueltypeEffect
                      {| priceChangeState := None; now := initialDate;
                         nowParam := initialParam |} in
          match nowEffect (appearance p) st with
          | Throw e => Throw e
          | Ok (q, st') =>
              Ok {| props := p; hooks := st';
                    swr := {| data := None; error := None |};
                    pushed := [q] |}
          end
      end
  end.

(** One event and the effects it triggers. The slots exist only while
    there is no error; an effect runs when its dependency changed:
    [setNow] stores a new [Date] object whenever [changeDate] accepts. *)
Definition step (e : Event) (pg : Page) : result Page :=
  match e with
  | Click day =>
      match error (swr pg) with
      | Some _ => Ok pg
      | None =>
          Ok {| props := props pg;
                hooks := clickSlot (data (swr pg)) day (hooks pg);
                swr := swr pg; pushed := pushed pg |}
      end
  | ChangeDate direction clock =>
      if negb (isFuture clock (newNowOf direction (now (hooks pg))))
      then
        match nowEffect (appearance (props pg))
                (changeDate direction clock (hooks pg)) with
        | Throw e => Throw e
        | Ok (q, st') =>
            Ok {| props := props pg; hooks := st'; swr := swr pg;
                  pushed := q :: pushed pg |}
        end
      else Ok pg
  | SetFueltype f =>
      let props' := {| fueltype := f; appearance := appearance (props pg) |} in
      if decide (f = fueltype (props pg))
      then Ok {| props := props'; hooks := hooks pg; swr := swr pg;
                 pushed := pushed pg |}
      else Ok {| props := props'; hooks := fueltypeEffect (hooks pg);
                 swr := swr pg; pushed := pushed pg |}
  | SetAppearance a =>
      Ok {| props := {| fueltype := fueltype (props pg); appearance := a |};
            hooks := hooks pg; swr := swr pg; pushed := pushed pg |}
  | SwrResult r =>
      Ok {| props := props pg; hooks := hooks pg; swr := r;
            pushed := pushed pg |}
  end.

Fixpoint run (events : list Event) (pg : Page) : result Page :=
  match events with
  | [] => Ok pg
  | e :: rest =>
      match step e pg with
      | Throw x => Throw x
      | Ok pg' => run rest pg'
      end
  end.

(** The states the page can be in: mounted, then any events. *)
Definition reachable (pg : Page) : Prop :=
  exists p nowQuery clock events pg0,
    mount p nowQuery clock = Ok pg0 /\ run events pg0 = Ok pg.

End Home.

(** The key of [useSWR] as a function of the reference date and the fuel
    type: [nowParam] is [format(now, "yyyy-MM-dd")] (lines 111 and 124-140),
    the key is [[API_URL, nowParam, fueltype]] (line 114). *)
Definition deriveKey {Fueltype : Type} (API_URL : string) (date : Date)
    (fuel : Fueltype) : result (string * string * Fueltype) :=
  match format_yyyy_MM_dd date with
  | Throw e => Throw e
  | Ok param => Ok (API_URL, param, fuel)
  end.

(** The tracker state a [HomeState] stands for: [None] is Collapsed,
    [Some slot] is Expanded(slot). *)
Definition trackerState (st : HomeState) : option DayKind :=
  pcs_day <$> priceChangeState st.

(** The slot of [day] in a rendered page. *)
Definition hv_slot (v : HomeView) (day : DayKind) : option PriceDisplayView :=
  match hv_slots v with
  | None => None
  | Some (y, t, m) =>
      Some match day with
           | Yesterday => y
           | Today => t
           | Tomorrow => m
           end
  end.

Definition result_map {A B : Type} (f : A -> B) (r : result A) : result B :=
  match r with
  | Ok a => Ok (f a)
  | Throw e => Throw e
  end.

(** ** The record store behind [useSWR] *)

Module PriceRecordStore.
Section Store.

Context {K : Type} `{Countable K}.
Context {D E : Type}.

(** Modelled from the spec: what the store holds for a key (section 4.3):
    a fetch in flight, the resolved record, or the error of the attempt
    that ended. *)
Inductive Entry : Type :=
| InFlight
| Resolved (d : D)
| Failed (e : E).

(** Modelled from the spec: the [{loading, error, data}] status that
    [resolve] returns (section 4.3). *)
Inductive Status : Type :=
| Loading
| HasData (d : D)
| HasError (e : E).

(** Modelled from the spec: the store of section 4.3, which the page gets
    from the [swr] package ([useSWR], line 113); the package is not part of
    the sources. [entries] is the key-to-status mapping, [fetches] the calls
    of the fetch function so far, latest first. *)
Record Store : Type := {
  entries : gmap K Entry;
  fetches : list K;
}.

(** Modelled from the spec: [resolve(key, fetchFn)] of section 4.3, the
    missing [useSWR]. No entry: one is created, marked loading, and the
    fetch function is invoked. In flight: the same status, no fetch.
    Resolved: the cached data. Failed: the earlier attempt has ended, so the
    call starts a new one. *)
Definition resolve (key : K) (s : Store) : Status * Store :=
  match entries s !! key with
  | None | Some (Failed _) =>
      (Loading,
       {| entries := <[key := InFlight]> (entries s);
          fetches := key :: fetches s |})
  | Some InFlight => (Loading, s)
  | Some (Resolved d) => (HasData d, s)
  end.

(** Modelled from the spec: the status a reader sees for [key] (section
    4.3); a failure surfaces as the error of the entry. *)
Definition statusOf (key : K) (s : Store) : option Status :=
  match entries s !! key with
  | None => None
  | Some InFlight => Some Loading
  | Some (Resolved d) => Some (HasData d)
  | Some (Failed e) => Some (HasError e)
  end.

(** Modelled from the spec: the completion of the fetch started for [key]
    (section 4.3, "transition on completion"); it touches the entry of
    [key] only, and only while that entry is in flight. *)
Definition settle (key : K) (outcome : D + E) (s : Store) : Store :=
  match entries s !! key with
  | Some InFlight =>
      {| entries := <[key := match outcome with
                             | inl d => Resolved d
                             | inr e => Failed e
                             end]> (entries s);
         fetches := fetches s |}
  | _ => s
  end.

(** Modelled from the spec: what happens to the store over time, calls of
    [resolve] and completions of fetches, in any interleaving (section 5). *)
Inductive Op : Type :=
| Resolve (key : K)
| Settle (key : K) (outcome : D + E).

Definition exec (op : Op) (s : Store) : Store :=
  match op with
  | Resolve key => snd (resolve key s)
  | Settle key outcome => settle key outcome s
  end.

Definition execAll (ops : list Op) (s : Store) : Store :=
  foldl (fun s op => exec op s) s ops.

(** How often the fetch function was invoked for [key]. *)
Definition fetchCount (key : K) (s : Store) : nat :=
  length (filter (fun k => k = key) (fetches s)).

Definition isResolveOf (key : K) (op : Op) : bool :=
  match op with
  | Resolve k => bool_decide (k = key)
  | Settle _ _ => false
  end.

Definition isSettleOf (key : K) (op : Op) : bool :=
  match op with
  | Resolve _ => false
  | Settle k _ => bool_decide (k = key)
  end.

End Store.
End PriceRecordStore.

Arguments Props : clear implicits.
Arguments Page : clear implicits.
Arguments Event : clear implicits.

(** ** Auxiliary notions for the calendar proofs *)

(** The length of month [m] (1..12), as a formula instead of a table. *)
Definition monthLength (leap : bool) (m : Z) : Z :=
  if m =? 2 then (if leap then 29 else 28)
  else if (m =? 4) || (m =? 6) || (m =? 9) || (m =? 11) then 30 else 31.

(** The day numbers of 0001-01-01 and 9999-12-31: the days whose year
    [format] prints with four digits and [parse] accepts. *)
Definition firstDay : Z := Eval cbv in dayOfCivil 1 1 1.
Definition lastDay : Z := Eval cbv in dayOfCivil 9999 12 31.

Fixpoint digitsOnly (s : string) : bool :=
  match s with
  | EmptyString => true
  | String c rest => isDigit c && digitsOnly rest
  end.

Fixpoint decimalValue (acc : Z) (s : string) : Z :=
  match s with
  | EmptyString => acc
  | String c rest => decimalValue (10 * acc + digitValue c) rest
  end.

(** [addLeadingZeros n width] is [width] digits that read back as [n]. *)
Definition paddedOk (width : nat) (n : Z) : bool :=
  let s := addLeadingZeros n width in
  digitsOnly s && Nat.eqb (String.length s) width && (decimalValue 0 s =? n).

(** The clock reading an event makes, if it makes one. *)
Definition clockOf {Fueltype : Type} (e : Event Fueltype) : option Z :=
  match e with
  | ChangeDate _ clock => Some clock
  | _ => None
  end.

(** The reference date of [st] is a valid date whose day is not after the
    day of the clock reading [clock]. *)
Definition notAfter (clock : Z) (st : HomeState) : Prop :=
  exists t, now st = DateAt t /\ dayOf t <= dayOf clock.

(** ** A concrete page

    Fuel type ["E10"], a clock reading of 2024-03-10 10:00, a response whose
    today slot was revised once, whose yesterday slot was not, and which has
    no record for tomorrow. *)

Module Scenario.

Definition clock : Z := 1710064800000.

Definition todayPrice : DayPrice :=
  {| date := "2024-03-10"; price := 21.5%float;
     prevPrices := [ {| detectionTimestamp := "2024-03-10T08:00:00Z";
                        prevPrice := 21.75%float |} ] |}.

Definition yesterdayPrice : DayPrice :=
  {| date := "2024-03-09"; price := 21.25%float; prevPrices := [] |}.

Definition response : PriceResponse :=
  {| message := "ok";
     prices := {| today := Some todayPrice; tomorrow := None;
                  yesterday := Some yesterdayPrice |} |}.

(** A later response for the same key: the price was revised once more. *)
Definition laterResponse : PriceResponse :=
  {| message := "ok";
     prices := {| today := Some {| date := "2024-03-10"; price := 21.0%float;
                                   prevPrices := [] |};
                  tomorrow := None; yesterday := None |} |}.

Definition homeProps : Props string :=
  {| fueltype := "E10"%string;
     appearance := {| bgColor := None; textColor := None |} |}.

(** The collapsed state of the page on 2024-03-10. *)
Definition collapsed : HomeState :=
  {| priceChangeState := None; now := DateAt 1710028800000;
     nowParam := "2024-03-10" |}.

(** What the first render pushed to the router. *)
Definition firstQuery : Query :=
  {| q_now := "2024-03-10"; q_bgColor := None; q_textColor := None |}.

Definition loaded : Page string :=
  {| props := homeProps; hooks := collapsed;
     swr := {| data := Some response; error := None |};
     pushed := [firstQuery] |}.

(** The same page with the today slot expanded. *)
Definition expanded : Page string :=
  {| props := homeProps;
     hooks := {| priceChangeState :=
                   Some {| pcs_prevPrices := prevPrices todayPrice;
                           pcs_day := Today |};
                 now := DateAt 1710028800000;
                 nowParam := "2024-03-10" |};
     swr := {| data := Some response; error := None |};
     pushed := [firstQuery] |}.

(** A stand-in for the time stamp formatter: it shows the stamp as it is. *)
Definition showStamp (stamp : string) : result string := Ok stamp.

Definition apiUrl : string := "/api/prices".

End Scenario.

(** ** Notions for the properties of the whole page *)

(** The check that the calendar date of the day of [y]-[m]-[d] is that
    date again, for a day [d] the month has. *)
Definition civilBackOk (y m d : Z) : bool :=
  negb ((1 <=? d) && (d <=? monthLength (isLeapYearIndex y) m))
  || (let '(y', m', d') := civilOfDay (dayOfCivil y m d) in
      (y' =? y) && (m' =? m) && (d' =? d)).

(** The same check for every month and day of the year [y]. *)
Definition cycleBackOk (y : Z) : bool :=
  forallb (fun m =>
             forallb (civilBackOk y m)
               (map (fun i => 1 + Z.of_nat i) (seq 0 (Z.to_nat 31))))
    (map (fun i => 1 + Z.of_nat i) (seq 0 (Z.to_nat 12))).

(** The string goes on with a digit, which [parseNDigits] would take. *)
Definition startsWithDigit (s : string) : bool :=
  match s with
  | String c _ => isDigit c
  | EmptyString => false
  end.

(** A run of one to [width] decimal digits. *)
Definition digitRun (width : nat) (s : string) : Prop :=
  digitsOnly s = true /\ (1 <= String.length s <= width)%nat.

(** The query the effect on [now] pushes for a date parameter. *)
Definition queryOf (appearance : Appearance) (param : string) : Query :=
  {| q_now := param;
     q_bgColor := truthy (bgColor appearance);
     q_textColor := truthy (textColor appearance) |}.


(** The days a step moves the reference date by. *)
Definition directionDays (direction : Direction) : Z :=
  match direction with
  | DirLeft => -1
  | DirRight => 1
  end.

(** No colour of the query is the empty string. *)
Definition noEmptyColor (q : Query) : Prop :=
  q_bgColor q <> Some ""%string /\ q_textColor q <> Some ""%string.

(** What holds of every page after mounting: the reference date is a local
    midnight, [nowParam] is its formatted day, the latest push carries
    [nowParam], and no push carries an empty colour. *)
Definition pageInv {Fueltype : Type} (pg : Page Fueltype) : Prop :=
  (exists n, now (hooks pg) = DateAt (n * msPerDay)
             /\ nowParam (hooks pg) = formatCivil (civilOfDay n))
  /\ (exists q rest, pushed pg = q :: rest /\ q_now q = nowParam (hooks pg))
  /\ Forall noEmptyColor (pushed pg).

(** [fetcher] (lines 96-97): the address it hands to [fetch]; the response
    and its [json()] belong to the network. The first argument, the
    [API_URL] of the key, is not used; [fueltypeText] is the string the
    template literal makes of the fuel type. *)
Definition fetcher {Fueltype : Type} (fueltypeText : Fueltype -> string)
    (url now : string) (fueltype : Fueltype) : string :=
  ("/api/prices?now=" +:+ now +:+ "&type=" +:+ fueltypeText fueltype)%string.

(** ** Further concrete pages *)

Module Samples.

(** The page mounted with [now=2024-3-1] in the query. *)
Definition lenientPage : Page string :=
  {| props := Scenario.homeProps;
     hooks := {| priceChangeState := None;
                 now := DateAt (dayOfCivil 2024 3 1 * msPerDay);
                 nowParam := "2024-03-01" |};
     swr := {| data := None; error := None |};
     pushed := [ {| q_now := "2024-03-01"; q_bgColor := None;
                    q_textColor := None |} ] |}.

(** A time stamp formatter that raises on the empty stamp. *)
Definition strictStamp (stamp : string) : result string :=
  if String.eqb stamp "" then Throw (RangeError "Invalid time value")
  else Ok stamp.

(** A history whose second time stamp is empty. *)
Definition brokenHistory : list PrevPrice :=
  [ {| detectionTimestamp := "2024-03-10T08:00:00Z";
       prevPrice := 21.75%float |};
    {| detectionTimestamp := ""; prevPrice := 21.5%float |} ].

(** The today slot expanded on that history. *)
Definition brokenState : HomeState :=
  {| priceChangeState :=
       Some {| pcs_prevPrices := brokenHistory; pcs_day := Today |};
     now := DateAt 1710028800000;
     nowParam := "2024-03-10" |}.

End Samples.

(** * Properties *)

(** ** The change tracker *)

Section Tracker.

Context {Fueltype : Type} `{EqDecision Fueltype}.
Variable API_URL : string.
Variable formatTimestamp : string -> result string.

Lemma toggle_keeps_date (prev : list PrevPrice) (day : DayKind)
    (st : HomeState) :
  now (toggleShowPriceChange prev day st) = now st
  /\ nowParam (toggleShowPriceChange prev day st) = nowParam st.
Proof.
  unfold toggleShowPriceChange. case_decide; simpl; auto.
Qed.

Lemma toggle_same_slot (prev : list PrevPrice) (day : DayKind)
    (st : HomeState) :
  trackerState st = Some day ->
  priceChangeState (toggleShowPriceChange prev day st) = None.
Proof.
  unfold trackerState, toggleShowPriceChange. intros Hexp.
  case_decide; [reflexivity | contradiction].
Qed.

Lemma toggle_other_slot (prev : list PrevPrice) (day : DayKind)
    (st : HomeState) :
  trackerState st <> Some day ->
  priceChangeState (toggleShowPriceChange prev day st)
  = Some {| pcs_prevPrices := prev; pcs_day := day |}.
Proof.
  unfold trackerState, toggleShowPriceChange. intros Hother.
  case_decide; [contradiction | reflexivity].
Qed.

(** C2: from Expanded(s), [toggle(s)] goes to Collapsed; from Collapsed or
    from Expanded(s') with [s' <> s] it goes to Expanded(s), holding the
    history passed; two toggles of the same slot from Collapsed come back to
    the state they started from. *)
Theorem toggle_transitions (prev prev' : list PrevPrice) (s : DayKind)
    (st : HomeState) :
  (trackerState st = Some s ->
   trackerState (toggleShowPriceChange prev s st) = None)
  /\ (trackerState st = None \/
      (exists s', trackerState st = Some s' /\ s' <> s) ->
      priceChangeState (toggleShowPriceChange prev s st)
      = Some {| pcs_prevPrices := prev; pcs_day := s |}
      /\ trackerState (toggleShowPriceChange prev s st) = Some s)
  /\ (trackerState st = None ->
      toggleShowPriceChange prev' s (toggleShowPriceChange prev s st) = st).
Proof.
  split; [| split].
  - intros Hexp. unfold trackerState at 1.
    rewrite (toggle_same_slot prev s st Hexp). reflexivity.
  - intros Hother.
    assert (Hne : trackerState st <> Some s).
    { destruct Hother as [Hc | (s' & Hs' & Hdiff)].
      - rewrite Hc. discriminate.
      - rewrite Hs'. intros Heq. injection Heq as ->. contradiction. }
    unfold trackerState at 1.
    rewrite (toggle_other_slot prev s st Hne). split; reflexivity.
  - intros Hc. destruct st as [[pcs |] n np]; [discriminate |].
    unfold toggleShowPriceChange. simpl.
    destruct (decide (None = Some s)) as [Habs | _]; [discriminate |].
    simpl. destruct (decide (Some s = Some s)) as [_ | Habs];
      [reflexivity | contradiction].
Qed.

End Tracker.

(** ** Days and time values *)

Section Days.

Lemma dayOf_spec (t : Z) :
  dayOf t * msPerDay <= t < (dayOf t + 1) * msPerDay.
Proof.
  unfold dayOf, msPerDay.
  pose proof (Z.div_mod t 86400000 ltac:(lia)) as Hdm.
  pose proof (Z.mod_pos_bound t 86400000 ltac:(lia)) as Hb.
  lia.
Qed.

Lemma dayOf_add (t k : Z) : dayOf (t + k * msPerDay) = dayOf t + k.
Proof.
  unfold dayOf, msPerDay. rewrite Z.div_add by lia. reflexivity.
Qed.

Lemma dayOf_midnight (n : Z) : dayOf (n * msPerDay) = n.
Proof. unfold dayOf, msPerDay. apply Z.div_mul. lia. Qed.

Lemma dayOf_le (t u : Z) : t <= u -> dayOf t <= dayOf u.
Proof. intros Hle. unfold dayOf, msPerDay. apply Z.div_le_mono; lia. Qed.

Lemma dayOf_lt_inv (t u : Z) : dayOf t < dayOf u -> t < u.
Proof.
  intros Hlt. pose proof (dayOf_spec t). pose proof (dayOf_spec u).
  unfold msPerDay in *. nia.
Qed.

End Days.

(** ** Navigation *)

Section Navigation.

Context {Fueltype : Type} `{EqDecision Fueltype}.

Lemma changeDate_accepted (direction : Direction) (clock : Z)
    (st : HomeState) :
  isFuture clock (newNowOf direction (now st)) = false ->
  changeDate direction clock st
  = {| priceChangeState := None;
       now := newNowOf direction (now st); nowParam := nowParam st |}.
Proof. intros Hpast. unfold changeDate. rewrite Hpast. reflexivity. Qed.

Lemma changeDate_rejected (direction : Direction) (clock : Z)
    (st : HomeState) :
  isFuture clock (newNowOf direction (now st)) = true ->
  changeDate direction clock st = st.
Proof. intros Hfut. unfold changeDate. rewrite Hfut. reflexivity. Qed.

(** A step back from a day that is not after the clock's day is never in
    the future. *)
Lemma back_not_future (t clock : Z) :
  dayOf t <= dayOf clock ->
  isFuture clock (newNowOf DirLeft (DateAt t)) = false.
Proof.
  intros Hday. cbn [newNowOf subDays addDays isFuture].
  apply Z.ltb_ge.
  assert (Hlt : t + - (1) * msPerDay < clock).
  { apply dayOf_lt_inv. rewrite dayOf_add. lia. }
  lia.
Qed.

(** A step forward from the clock's own day is always in the future. *)
Lemma forward_from_today_future (t clock : Z) :
  dayOf t = dayOf clock ->
  isFuture clock (newNowOf DirRight (DateAt t)) = true.
Proof.
  intros Hday. cbn [newNowOf addDays isFuture].
  apply Z.ltb_lt. apply dayOf_lt_inv. rewrite dayOf_add. lia.
Qed.

(** C10: from a reference date whose day is not after the clock's day, a
    step to the left is accepted: the new reference date is the old one
    minus one day, the tracker is cleared, and on the page the effect on
    [now] follows without raising. *)
Theorem backward_step_succeeds (pg : Page Fueltype) (t clock : Z) :
  now (hooks pg) = DateAt t ->
  dayOf t <= dayOf clock ->
  changeDate DirLeft clock (hooks pg)
  = {| priceChangeState := None; now := DateAt (t - msPerDay);
       nowParam := nowParam (hooks pg) |}
  /\ dayOf (t - msPerDay) = dayOf t - 1
  /\ exists pg', step (ChangeDate DirLeft clock) pg = Ok pg'
       /\ now (hooks pg') = DateAt (t - msPerDay)
       /\ priceChangeState (hooks pg') = None.
Proof.
  intros Hnow Hday.
  pose proof (back_not_future t clock Hday) as Hpast.
  assert (Hnew : newNowOf DirLeft (DateAt t) = DateAt (t - msPerDay)).
  { cbn [newNowOf subDays addDays]. f_equal; lia. }
  assert (Hcd : changeDate DirLeft clock (hooks pg)
                = {| priceChangeState := None; now := DateAt (t - msPerDay);
                     nowParam := nowParam (hooks pg) |}).
  { rewrite changeDate_accepted; rewrite Hnow; [| exact Hpast].
    rewrite Hnew. reflexivity. }
  split; [exact Hcd |]. split.
  - replace (t - msPerDay) with (t + (-1) * msPerDay) by lia.
    rewrite dayOf_add. lia.
  - unfold step. rewrite Hnow, Hpast. cbn [negb].
    rewrite Hcd. unfold nowEffect. cbn.
    eexists. split; [reflexivity |]. split; reflexivity.
Qed.

(** An event that leaves the page with another fuel type or another
    reference date leaves the tracker collapsed. *)
Lemma step_change_collapses (e : Event Fueltype) (pg pg' : Page Fueltype) :
  step e pg = Ok pg' ->
  fueltype (props pg') <> fueltype (props pg)
  \/ now (hooks pg') <> now (hooks pg) ->
  trackerState (hooks pg') = None.
Proof.
  intros Hstep Hchanged. destruct e as [day | direction clock | f | a | r];
    cbn [step] in Hstep.
  - destruct (error (swr pg)); injection Hstep as <-.
    + destruct Hchanged as [? | ?]; contradiction.
    + cbn in Hchanged. unfold clickSlot, PriceDisplay_onClick in Hchanged.
      destruct (hasPriceChanged _).
      * unfold toggleDisplayChanges in Hchanged.
        destruct (toggle_keeps_date
                    (slotPrevPrices (data (swr pg)) day) day (hooks pg))
          as [Hsame _].
        rewrite Hsame in Hchanged.
        destruct Hchanged as [? | ?]; contradiction.
      * destruct Hchanged as [? | ?]; contradiction.
  - destruct (isFuture clock (newNowOf direction (now (hooks pg)))) eqn:Hfut;
      cbn [negb] in Hstep.
    + injection Hstep as <-. destruct Hchanged as [? | ?]; contradiction.
    + rewrite (changeDate_accepted _ _ _ Hfut) in Hstep.
      unfold nowEffect in Hstep. cbn in Hstep.
      destruct (format_yyyy_MM_dd (newNowOf direction (now (hooks pg))));
        [| discriminate].
      injection Hstep as <-. reflexivity.
  - destruct (decide (f = fueltype (props pg))) as [-> | Hne];
      injection Hstep as <-.
    + destruct Hchanged as [? | ?]; contradiction.
    + reflexivity.
  - injection Hstep as <-. destruct Hchanged as [? | ?]; contradiction.
  - injection Hstep as <-. destruct Hchanged as [? | ?]; contradiction.
Qed.

(** A new fuel type always goes through, and changes the fuel type. *)
Lemma set_fueltype_resets (f : Fueltype) (pg : Page Fueltype) :
  f <> fueltype (props pg) ->
  exists pg', step (SetFueltype f) pg = Ok pg'
    /\ fueltype (props pg') = f
    /\ priceChangeState (hooks pg') = None.
Proof.
  intros Hne. cbn [step].
  destruct (decide (f = fueltype (props pg))); [contradiction |].
  eexists. split; [reflexivity |]. split; reflexivity.
Qed.

(** An accepted date step on a valid date always goes through, and changes
    the date. *)
Lemma accepted_step_resets (direction : Direction) (clock t : Z)
    (pg : Page Fueltype) :
  now (hooks pg) = DateAt t ->
  isFuture clock (newNowOf direction (DateAt t)) = false ->
  exists pg', step (ChangeDate direction clock) pg = Ok pg'
    /\ now (hooks pg') = newNowOf direction (DateAt t)
    /\ now (hooks pg') <> now (hooks pg)
    /\ priceChangeState (hooks pg') = None.
Proof.
  intros Hnow Hpast. cbn [step]. rewrite Hnow, Hpast. cbn [negb].
  rewrite changeDate_accepted by (rewrite Hnow; exact Hpast).
  rewrite Hnow. unfold nowEffect.
  destruct direction; cbn; (eexists; split; [reflexivity |]);
    cbn; repeat split; try reflexivity;
    intros Heq; injection Heq; unfold msPerDay; lia.
Qed.

(** C4: whatever the tracker state, an event that leaves the page with
    another fuel type or another reference date leaves the tracker
    collapsed; a new fuel type always is such an event, and so is every
    date step that [changeDate] accepts. *)
Theorem reset_on_context_change (pg : Page Fueltype) :
  (forall e pg',
     step e pg = Ok pg' ->
     fueltype (props pg') <> fueltype (props pg)
     \/ now (hooks pg') <> now (hooks pg) ->
     trackerState (hooks pg') = None)
  /\ (forall f,
        f <> fueltype (props pg) ->
        exists pg', step (SetFueltype f) pg = Ok pg'
          /\ fueltype (props pg') = f
          /\ trackerState (hooks pg') = None)
  /\ (forall direction clock t,
        now (hooks pg) = DateAt t ->
        isFuture clock (newNowOf direction (DateAt t)) = false ->
        exists pg', step (ChangeDate direction clock) pg = Ok pg'
          /\ now (hooks pg') = newNowOf direction (DateAt t)
          /\ now (hooks pg') <> now (hooks pg)
          /\ trackerState (hooks pg') = None).
Proof.
  split; [| split].
  - intros e pg'. apply step_change_collapses.
  - intros f Hne.
    destruct (set_fueltype_resets f pg Hne) as (pg' & Hstep & Hf & Hcol).
    exists pg'. unfold trackerState. rewrite Hcol. auto.
  - intros direction clock t Hnow Hpast.
    destruct (accepted_step_resets direction clock t pg Hnow Hpast)
      as (pg' & Hstep & Hnew & Hdiff & Hcol).
    exists pg'. unfold trackerState. rewrite Hcol. auto.
Qed.

(** A mounted page has a valid reference date, and keeps one. *)
Lemma step_keeps_valid (e : Event Fueltype) (pg pg' : Page Fueltype) :
  (exists t, now (hooks pg) = DateAt t) ->
  step e pg = Ok pg' ->
  exists t', now (hooks pg') = DateAt t'.
Proof.
  intros (t & Hnow) Hstep.
  destruct e as [day | direction c | f | a | r]; cbn [step] in Hstep.
  - destruct (error (swr pg)); injection Hstep as <-; [eauto |].
    cbn [hooks]. unfold clickSlot, PriceDisplay_onClick.
    destruct (hasPriceChanged _); [| eauto].
    unfold toggleDisplayChanges.
    destruct (toggle_keeps_date
                (slotPrevPrices (data (swr pg)) day) day (hooks pg))
      as [Hsame _].
    rewrite Hsame. eauto.
  - destruct (isFuture c (newNowOf direction (now (hooks pg)))) eqn:Hfut;
      cbn [negb] in Hstep.
    + injection Hstep as <-. eauto.
    + rewrite (changeDate_accepted _ _ _ Hfut) in Hstep.
      unfold nowEffect in Hstep. cbn in Hstep. rewrite Hnow in Hstep.
      destruct direction; cbn in Hstep; injection Hstep as <-; cbn; eauto.
  - destruct (decide (f = fueltype (props pg)));
      injection Hstep as <-; eauto.
  - injection Hstep as <-. eauto.
  - injection Hstep as <-. eauto.
Qed.

Lemma reachable_valid (pg : Page Fueltype) :
  reachable pg -> exists t, now (hooks pg) = DateAt t.
Proof.
  intros (p & nowQuery & clock & events & pg0 & Hmount & Hrun).
  assert (Hvalid0 : exists t, now (hooks pg0) = DateAt t).
  { unfold mount in Hmount.
    destruct (getInitialDate nowQuery clock) as [[| t] |];
      cbn in Hmount; try discriminate.
    injection Hmount as <-. cbn. eauto. }
  clear Hmount. revert pg0 Hvalid0 Hrun.
  induction events as [| e rest IH]; intros pg0 Hvalid0 Hrun.
  - injection Hrun as <-. exact Hvalid0.
  - cbn [run] in Hrun. destruct (step e pg0) as [pg1 |] eqn:Hstep;
      [| discriminate].
    apply (IH pg1); [| exact Hrun].
    apply (step_keeps_valid e pg0 pg1 Hvalid0 Hstep).
Qed.

End Navigation.

(** ** Slots, clicks and the history panel *)

Section Slots.

Context {Fueltype : Type} `{EqDecision Fueltype}.
Variable formatTimestamp : string -> result string.

Lemma hasPriceChanged_false (price : option DayPrice) :
  hasPriceChanged price = false <->
  match price with
  | Some p => prevPrices p = []
  | None => True
  end.
Proof.
  unfold hasPriceChanged. destruct price as [p |]; simpl.
  - destruct (prevPrices p); cbn; split; intros Hx;
      first [reflexivity | discriminate].
  - split; auto.
Qed.

(** C5, amended: the guard against slots without revisions is in the click
    handler of [PriceDisplay], not in [toggleShowPriceChange]. A click on a
    slot whose record is null or whose [prevPrices] is empty leaves the
    state as it is; [toggleShowPriceChange] itself, given an empty history,
    toggles like for any other: it expands the slot, or collapses it when
    it is the expanded one. *)
Theorem empty_history_guard_is_in_click (data : option PriceResponse)
    (day : DayKind) (st : HomeState) :
  (slotPrevPrices data day = [] -> clickSlot data day st = st)
  /\ (trackerState st <> Some day ->
      priceChangeState (toggleShowPriceChange [] day st)
      = Some {| pcs_prevPrices := []; pcs_day := day |})
  /\ (trackerState st = Some day ->
      priceChangeState (toggleShowPriceChange [] day st) = None).
Proof.
  split; [| split].
  - intros Hempty. unfold clickSlot, PriceDisplay_onClick.
    assert (Hno : hasPriceChanged (slotPrice data day) = false).
    { apply hasPriceChanged_false. unfold slotPrevPrices in Hempty.
      destruct (slotPrice data day); [exact Hempty | exact I]. }
    rewrite Hno. reflexivity.
  - apply toggle_other_slot.
  - apply toggle_same_slot.
Qed.

Lemma format_header_valid (t : Z) :
  exists header, format_eee_dd_LLL_yyyy (DateAt t) = Ok header.
Proof.
  unfold format_eee_dd_LLL_yyyy.
  destruct (civilOfDay (dayOf t)) as [[y m] d]. eexists. reflexivity.
Qed.

Lemma render_collapsed (r : SWRResponse) (st : HomeState) (t : Z) :
  now st = DateAt t ->
  error r = None ->
  priceChangeState st = None ->
  exists v, Home_render formatTimestamp r st = Ok v
    /\ hv_errorNotice v = false
    /\ hv_panel v = None
    /\ forall day,
         hv_slot v day
         = Some (PriceDisplay (bool_decide (data r = None))
                   (slotPrice (data r) day) day false).
Proof.
  intros Hnow Herr Hcol. unfold Home_render. rewrite Hnow.
  destruct (format_header_valid t) as [header ->].
  rewrite Herr, Hcol.
  eexists. split; [reflexivity |]. repeat split.
  intros day. unfold hv_slot, isActive. cbn. rewrite Hcol. cbn.
  destruct (data r); destruct day; reflexivity.
Qed.

(** C8: a slot whose record is null in a response that has arrived is shown
    with the price text ["??.??"], without the pulse of the loading state and
    without the change marker; this differs from what the slot shows while
    loading, and by the pulse alone; a click on it does nothing; and the
    page, on a valid reference date, renders without raising. *)
Theorem null_slot_placeholder (r : PriceResponse) (day : DayKind)
    (st : HomeState) :
  slotPrice (Some r) day = None ->
  let shown :=
    PriceDisplay false (slotPrice (Some r) day) day
      (isActive st day) in
  pd_priceText shown = inr "??.??"%string
  /\ pd_animatePulse shown = false
  /\ pd_marker shown = false
  /\ pd_cursorPointer shown = false
  /\ shown <> PriceDisplay true (slotPrice None day) day (isActive st day)
  /\ PriceDisplay true (slotPrice None day) day (isActive st day)
     = {| pd_cursorPointer := pd_cursorPointer shown;
          pd_animatePulse := true;
          pd_activeStyle := pd_activeStyle shown;
          pd_title := pd_title shown; pd_role := pd_role shown;
          pd_day := pd_day shown; pd_marker := pd_marker shown;
          pd_priceText := pd_priceText shown |}
  /\ clickSlot (Some r) day st = st
  /\ (forall t, now st = DateAt t -> priceChangeState st = None ->
      exists v,
        Home_render formatTimestamp {| data := Some r; error := None |} st
        = Ok v
        /\ hv_slot v day = Some shown).
Proof.
  intros Hnull shown. subst shown. rewrite Hnull.
  repeat split.
  - intros Heq. apply (f_equal pd_animatePulse) in Heq. discriminate.
  - unfold clickSlot, PriceDisplay_onClick. rewrite Hnull. reflexivity.
  - intros t Hnow Hcol.
    destruct (render_collapsed {| data := Some r; error := None |} st t
                Hnow eq_refl Hcol) as (v & Hv & _ & _ & Hslots).
    exists v. split; [exact Hv |]. rewrite (Hslots day).
    cbn [data]. rewrite Hnull. unfold isActive. rewrite Hcol. reflexivity.
Qed.

Lemma run_swr_results (results : list SWRResponse) (pg : Page Fueltype) :
  exists pg', run (map SwrResult results) pg = Ok pg'
    /\ hooks pg' = hooks pg
    /\ props pg' = props pg
    /\ pushed pg' = pushed pg.
Proof.
  revert pg. induction results as [| r rest IH]; intros pg.
  - exists pg. cbn. auto.
  - cbn [map run step].
    destruct (IH {| props := props pg; hooks := hooks pg; swr := r;
                    pushed := pushed pg |})
      as (pg' & Hrun & Hh & Hp & Hq).
    exists pg'. split; [exact Hrun |]. cbn in *.
    repeat split; assumption.
Qed.

Lemma render_expanded_panel (r : SWRResponse) (st : HomeState)
    (pcs : PriceChangeState) (t : Z) :
  now st = DateAt t ->
  error r = None ->
  priceChangeState st = Some pcs ->
  result_map hv_panel (Home_render formatTimestamp r st)
  = result_map Some
      (PriceChange formatTimestamp (pcs_prevPrices pcs) (pcs_day pcs)).
Proof.
  intros Hnow Herr Hexp. unfold Home_render. rewrite Hnow.
  destruct (format_header_valid t) as [header ->].
  rewrite Herr, Hexp.
  destruct (PriceChange formatTimestamp _ _); reflexivity.
Qed.

(** C9: a click that expands a slot stores the [prevPrices] the slot had at
    the time of the click; whatever [useSWR] returns afterwards leaves the
    state cells as they are, and the panel is rendered from the stored
    history, not from the data of the render. *)
Theorem expanded_panel_is_snapshot (pg : Page Fueltype) (day : DayKind)
    (results : list SWRResponse) (t : Z) :
  now (hooks pg) = DateAt t ->
  error (swr pg) = None ->
  hasPriceChanged (slotPrice (data (swr pg)) day) = true ->
  trackerState (hooks pg) <> Some day ->
  let history := slotPrevPrices (data (swr pg)) day in
  exists pg1 pg2,
    step (Click day) pg = Ok pg1
    /\ run (map SwrResult results) pg1 = Ok pg2
    /\ priceChangeState (hooks pg1)
       = Some {| pcs_prevPrices := history; pcs_day := day |}
    /\ hooks pg2 = hooks pg1
    /\ (error (swr pg2) = None ->
        result_map hv_panel
          (Home_render formatTimestamp (swr pg2) (hooks pg2))
        = result_map Some (PriceChange formatTimestamp history day)).
Proof.
  intros Hnow Herr Hchanged Hother history.
  assert (Hclick : priceChangeState (clickSlot (data (swr pg)) day (hooks pg))
                   = Some {| pcs_prevPrices := history; pcs_day := day |}).
  { unfold clickSlot, PriceDisplay_onClick. rewrite Hchanged.
    unfold toggleDisplayChanges. apply toggle_other_slot. exact Hother. }
  assert (Hnow1 : now (clickSlot (data (swr pg)) day (hooks pg)) = DateAt t).
  { unfold clickSlot, PriceDisplay_onClick. rewrite Hchanged.
    unfold toggleDisplayChanges.
    destruct (toggle_keeps_date history day (hooks pg)) as [Hsame _].
    unfold history in Hsame. rewrite Hsame. exact Hnow. }
  set (pg1 := {| props := props pg;
                 hooks := clickSlot (data (swr pg)) day (hooks pg);
                 swr := swr pg; pushed := pushed pg |}).
  destruct (run_swr_results results pg1) as (pg2 & Hrun & Hh & _ & _).
  exists pg1, pg2. split.
  { cbn [step]. rewrite Herr. reflexivity. }
  split; [exact Hrun |]. split; [exact Hclick |]. split; [exact Hh |].
  intros Herr2. rewrite Hh.
  apply (render_expanded_panel (swr pg2) (hooks pg1) _ t Hnow1 Herr2 Hclick).
Qed.

End Slots.

(** ** The record store *)

Section StoreFacts.

Import PriceRecordStore.

Context {K : Type} `{Countable K}.
Context {D E : Type}.

Abbreviation Store := (@Store K _ _ D E).
Abbreviation Op := (@Op K D E).

Lemma fetchCount_cons (key k : K) (entries0 : gmap K (@Entry D E))
    (log : list K) :
  fetchCount key {| entries := entries0; fetches := k :: log |}
  = ((if decide (k = key) then 1 else 0)
     + fetchCount key {| entries := entries0; fetches := log |})%nat.
Proof.
  unfold fetchCount. cbn [fetches]. rewrite filter_cons.
  destruct (decide (k = key)); reflexivity.
Qed.

Lemma resolve_absent (key : K) (s : Store) :
  entries s !! key = None ->
  fst (resolve key s) = Loading
  /\ entries (snd (resolve key s)) !! key = Some InFlight
  /\ fetchCount key (snd (resolve key s)) = S (fetchCount key s).
Proof.
  intros Hnone. unfold resolve. rewrite Hnone. cbn [fst snd entries].
  split; [reflexivity |]. split; [apply lookup_insert_eq |].
  rewrite fetchCount_cons. destruct (decide (key = key)); [| contradiction].
  destruct s; reflexivity.
Qed.

Lemma resolve_in_flight (key : K) (s : Store) :
  entries s !! key = Some InFlight ->
  resolve key s = (Loading, s).
Proof. intros Hfl. unfold resolve. rewrite Hfl. reflexivity. Qed.

Lemma resolve_cached (key : K) (d : D) (s : Store) :
  entries s !! key = Some (Resolved d) ->
  resolve key s = (HasData d, s).
Proof. intros Hres. unfold resolve. rewrite Hres. reflexivity. Qed.

(** An operation on another key leaves the entry and the fetch count of
    [key] alone. *)
Lemma exec_other_key (key : K) (op : Op) (s : Store) :
  isResolveOf key op = false ->
  isSettleOf key op = false ->
  entries (exec op s) !! key = entries s !! key
  /\ fetchCount key (exec op s) = fetchCount key s.
Proof.
  intros Hres Hset. destruct op as [k | k outcome]; cbn in Hres, Hset |- *.
  - apply bool_decide_eq_false in Hres. unfold resolve.
    destruct (entries s !! k) as [[| d | e] |]; cbn [snd entries];
      try (split; reflexivity);
      (split; [apply lookup_insert_ne; exact Hres |]);
      rewrite fetchCount_cons; (destruct (decide (k = key));
        [contradiction | destruct s; reflexivity]).
  - apply bool_decide_eq_false in Hset. unfold settle.
    destruct (entries s !! k) as [[| d | e] |]; cbn [entries];
      try (split; reflexivity).
    split; [apply lookup_insert_ne; exact Hset | reflexivity].
Qed.

(** While the entry of [key] is in flight and no completion for [key]
    arrives, nothing fetches for [key] and the entry stays in flight. *)
Lemma pending_no_fetch (key : K) (ops : list Op) (s : Store) :
  entries s !! key = Some InFlight ->
  forallb (fun op => negb (isSettleOf key op)) ops = true ->
  entries (execAll ops s) !! key = Some InFlight
  /\ fetchCount key (execAll ops s) = fetchCount key s.
Proof.
  revert s. induction ops as [| op ops IH]; intros s Hfl Hno.
  - cbn. auto.
  - cbn [forallb] in Hno. apply andb_prop in Hno as [Hop Hrest].
    apply negb_true_iff in Hop.
    change (execAll (op :: ops) s) with (execAll ops (exec op s)).
    destruct (isResolveOf key op) eqn:Hres.
    + destruct op as [k | k outcome]; [| discriminate].
      cbn in Hres. apply bool_decide_eq_true in Hres. subst k.
      cbn [exec]. rewrite (resolve_in_flight key s Hfl). cbn [snd].
      apply IH; assumption.
    + destruct (exec_other_key key op s Hres Hop) as [Hent Hcnt].
      destruct (IH (exec op s)) as [Hent' Hcnt'];
        [rewrite Hent; exact Hfl | exact Hrest |].
      split; [exact Hent' | rewrite Hcnt'; exact Hcnt].
Qed.

(** C6: starting without an entry for [key], any run of operations that
    holds at least one [resolve] of [key] and no completion for [key] (so
    every [resolve] of [key] after the first finds the fetch pending)
    invokes the fetch function exactly once for [key], whatever happens to
    other keys in between; and a [resolve] of a key whose entry is resolved
    returns the cached data, leaving the store, and with it the fetch log,
    as it is. *)
Theorem at_most_one_fetch (key : K) (ops : list Op) (s : Store) :
  entries s !! key = None ->
  forallb (fun op => negb (isSettleOf key op)) ops = true ->
  existsb (isResolveOf key) ops = true ->
  fetchCount key (execAll ops s) = S (fetchCount key s)
  /\ entries (execAll ops s) !! key = Some InFlight
  /\ forall (s' : Store) (d : D),
       entries s' !! key = Some (Resolved d) ->
       resolve key s' = (HasData d, s').
Proof.
  intros Hnone Hno Hsome.
  assert (Hmain : fetchCount key (execAll ops s) = S (fetchCount key s)
                  /\ entries (execAll ops s) !! key = Some InFlight).
  { revert s Hnone Hno Hsome. induction ops as [| op ops IH];
      intros s Hnone Hno Hsome; [discriminate |].
    cbn [forallb] in Hno. apply andb_prop in Hno as [Hop Hrest].
    apply negb_true_iff in Hop.
    change (execAll (op :: ops) s) with (execAll ops (exec op s)).
    destruct (isResolveOf key op) eqn:Hres.
    - destruct op as [k | k outcome]; [| discriminate].
      cbn in Hres. apply bool_decide_eq_true in Hres. subst k.
      cbn [exec].
      destruct (resolve_absent key s Hnone) as (_ & Hfl & Hcnt).
      destruct (pending_no_fetch key ops _ Hfl Hrest) as [Hent' Hcnt'].
      split; [rewrite Hcnt'; exact Hcnt | exact Hent'].
    - cbn [existsb] in Hsome. rewrite Hres in Hsome. cbn in Hsome.
      destruct (exec_other_key key op s Hres Hop) as [Hent Hcnt].
      destruct (IH (exec op s)) as [Hcnt' Hent'];
        [rewrite Hent; exact Hnone | exact Hrest | exact Hsome |].
      split; [rewrite Hcnt', Hcnt; reflexivity | exact Hent']. }
  destruct Hmain as [Hcnt Hent]. split; [exact Hcnt |].
  split; [exact Hent |]. intros s' d. apply resolve_cached.
Qed.

End StoreFacts.

(** ** The calendar *)

Section Calendar.

Ltac split_comparisons :=
  repeat match goal with
         | |- context [Z.ltb ?a ?b] => destruct (Z.ltb_spec a b)
         | |- context [Z.leb ?a ?b] => destruct (Z.leb_spec a b)
         | |- context [Z.eqb ?a ?b] => destruct (Z.eqb_spec a b)
         end.

(** Every day number has a calendar date, and the date gives the day
    number back. *)
Lemma dayOfCivil_civilOfDay (n : Z) :
  let '(y, m, d) := civilOfDay n in
  dayOfCivil y m d = n /\ 1 <= m <= 12 /\ 1 <= d.
Proof.
  unfold civilOfDay, dayOfCivil. cbv zeta. split_comparisons.
  all: Z.div_mod_to_equations; lia.
Qed.

Lemma civilOfDay_day_le (n : Z) :
  let '(y, m, d) := civilOfDay n in
  d <= monthLength (isLeapYearIndex y) m.
Proof.
  unfold civilOfDay, monthLength, isLeapYearIndex. cbv zeta.
  split_comparisons; cbn [orb andb negb].
  all: Z.div_mod_to_equations; lia.
Qed.

Lemma civilOfDay_year_range (n : Z) :
  firstDay <= n <= lastDay ->
  let '(y, m, d) := civilOfDay n in 1 <= y <= 9999.
Proof.
  unfold firstDay, lastDay, civilOfDay. cbv zeta. intros Hn.
  split_comparisons.
  all: Z.div_mod_to_equations; lia.
Qed.

Lemma daysInMonth_monthLength (y m : Z) :
  1 <= m <= 12 ->
  daysInMonth y (m - 1) = monthLength (isLeapYearIndex y) m.
Proof.
  intros Hm.
  assert (Hcases : m = 1 \/ m = 2 \/ m = 3 \/ m = 4 \/ m = 5 \/ m = 6
                   \/ m = 7 \/ m = 8 \/ m = 9 \/ m = 10 \/ m = 11
                   \/ m = 12) by lia.
  unfold daysInMonth.
  destruct (isLeapYearIndex y);
    repeat (destruct Hcases as [-> | Hcases]; [reflexivity |]);
    subst; reflexivity.
Qed.

Lemma monthLength_le_31 (leap : bool) (m : Z) : monthLength leap m <= 31.
Proof.
  unfold monthLength. destruct leap; split_comparisons; cbn; lia.
Qed.

(** The calendar date of a day between 0001-01-01 and 9999-12-31 passes the
    validators of [parse]. *)
Lemma civilOfDay_valid (n : Z) :
  firstDay <= n <= lastDay ->
  let '(y, m, d) := civilOfDay n in
  validCivil y m d = true /\ 1 <= y <= 9999 /\ 1 <= m <= 12 /\ 1 <= d <= 31.
Proof.
  intros Hn.
  pose proof (dayOfCivil_civilOfDay n) as Hround.
  pose proof (civilOfDay_day_le n) as Hday.
  pose proof (civilOfDay_year_range n Hn) as Hyear.
  destruct (civilOfDay n) as [[y m] d].
  destruct Hround as (_ & Hm & Hd).
  pose proof (monthLength_le_31 (isLeapYearIndex y) m) as H31.
  split; [| lia].
  unfold validCivil. rewrite (daysInMonth_monthLength y m Hm).
  repeat (apply andb_true_intro; split);
    first [apply Z.ltb_lt | apply Z.leb_le]; lia.
Qed.

End Calendar.

(** ** [parse] reads back what [format] prints *)

Section ParseFormat.

Lemma append_cons (c : ascii) (s rest : string) :
  (String c s +:+ rest)%string = String c (s +:+ rest).
Proof. reflexivity. Qed.

Lemma append_empty_l (rest : string) : ("" +:+ rest)%string = rest.
Proof. reflexivity. Qed.

Lemma append_empty_r (s : string) : (s +:+ "")%string = s.
Proof.
  induction s as [| c s IH]; [reflexivity |].
  rewrite append_cons, IH. reflexivity.
Qed.

Lemma takeDigits_exact (s : string) :
  forall (acc : Z) (rest : string),
    digitsOnly s = true ->
    takeDigits (String.length s) acc (s +:+ rest)
    = (decimalValue acc s, rest).
Proof.
  induction s as [| c s IH]; intros acc rest Hdigits.
  - rewrite append_empty_l. destruct rest; reflexivity.
  - cbn in Hdigits. apply andb_prop in Hdigits as [Hc Hs].
    rewrite append_cons. cbn [String.length takeDigits].
    rewrite Hc. apply IH. exact Hs.
Qed.

Lemma parseNDigits_padded (width : nat) (n : Z) (rest : string) :
  (0 < width)%nat ->
  paddedOk width n = true ->
  parseNDigits width (addLeadingZeros n width +:+ rest) = Some (n, rest).
Proof.
  intros Hwidth Hok. unfold paddedOk in Hok. cbv zeta in Hok.
  apply andb_prop in Hok as [Hok Hvalue].
  apply andb_prop in Hok as [Hdigits Hlen].
  apply Nat.eqb_eq in Hlen. apply Z.eqb_eq in Hvalue.
  set (s := addLeadingZeros n width) in *.
  pose proof (takeDigits_exact s 0 rest Hdigits) as Htake.
  rewrite Hlen, Hvalue in Htake.
  destruct width as [| w]; [lia |].
  destruct s as [| c s']; [discriminate |].
  cbn in Hdigits. apply andb_prop in Hdigits as [Hc _].
  unfold parseNDigits. rewrite append_cons in *.
  rewrite Hc, Htake. reflexivity.
Qed.

Lemma forallb_range (check : Z -> bool) (lo len n : Z) :
  forallb check (map (fun i => lo + Z.of_nat i) (seq 0 (Z.to_nat len)))
  = true ->
  lo <= n < lo + len ->
  check n = true.
Proof.
  intros Hall Hn. rewrite forallb_forall in Hall. apply Hall.
  apply in_map_iff. exists (Z.to_nat (n - lo)). split; [lia |].
  apply in_seq. lia.
Qed.

Lemma paddedOk_year (y : Z) : 1 <= y <= 9999 -> paddedOk 4 y = true.
Proof.
  intros Hy. apply (forallb_range (paddedOk 4) 1 9999); [| lia].
  vm_compute. reflexivity.
Qed.

Lemma paddedOk_two (n : Z) : 1 <= n <= 31 -> paddedOk 2 n = true.
Proof.
  intros Hn. apply (forallb_range (paddedOk 2) 1 31); [| lia].
  vm_compute. reflexivity.
Qed.

Lemma parse_formatCivil (y m d : Z) (referenceDate : Date) :
  1 <= y <= 9999 ->
  1 <= m <= 12 ->
  1 <= d <= 31 ->
  validCivil y m d = true ->
  parse_yyyy_MM_dd (formatCivil (y, m, d)) referenceDate
  = DateAt (dayOfCivil y m d * msPerDay).
Proof.
  intros Hy Hm Hd Hvalid.
  unfold formatCivil, formatYear, parse_yyyy_MM_dd.
  replace (0 <? y) with true by (symmetry; apply Z.ltb_lt; lia).
  rewrite (parseNDigits_padded 4 y) by (first [lia | apply paddedOk_year; lia]).
  rewrite append_cons, append_empty_l. cbn [cutToken Ascii.eqb Bool.eqb].
  rewrite (parseNDigits_padded 2 m)
    by (first [lia | apply paddedOk_two; lia]).
  rewrite append_cons, append_empty_l. cbn [cutToken Ascii.eqb Bool.eqb].
  rewrite <- (append_empty_r (addLeadingZeros d 2)).
  rewrite (parseNDigits_padded 2 d)
    by (first [lia | apply paddedOk_two; lia]).
  cbn [onlyWhitespace andb]. rewrite Hvalid. reflexivity.
Qed.

(** [parse] after [format] gives local midnight of the same day, for the
    days from 0001-01-01 to 9999-12-31. *)
Lemma parse_format_midnight (t : Z) (referenceDate : Date) :
  firstDay <= dayOf t <= lastDay ->
  exists s, format_yyyy_MM_dd (DateAt t) = Ok s
    /\ parse_yyyy_MM_dd s referenceDate = DateAt (dayOf t * msPerDay).
Proof.
  intros Hrange. eexists. split; [reflexivity |].
  pose proof (civilOfDay_valid (dayOf t) Hrange) as Hvalid.
  pose proof (dayOfCivil_civilOfDay (dayOf t)) as Hround.
  destruct (civilOfDay (dayOf t)) as [[y m] d].
  destruct Hvalid as (Hvalid & Hy & Hm & Hd).
  destruct Hround as (Hback & _).
  rewrite parse_formatCivil by assumption. rewrite Hback. reflexivity.
Qed.

End ParseFormat.

(** ** The reference date and the key *)

Section ReferenceDate.

Context {Fueltype : Type} `{EqDecision Fueltype}.
Variable API_URL : string.

(** C7: two dates on the same calendar day, whatever their time values,
    give the same key for the same fuel type, and on a valid date the
    derivation returns a key without raising: the date part of the key is
    computed from the day number alone. *)
Theorem key_determinism (t1 t2 : Z) (f : Fueltype) :
  dayOf t1 = dayOf t2 ->
  deriveKey API_URL (DateAt t1) f = deriveKey API_URL (DateAt t2) f
  /\ deriveKey API_URL (DateAt t1) f
     = Ok (API_URL, formatCivil (civilOfDay (dayOf t1)), f).
Proof.
  intros Hday. unfold deriveKey, format_yyyy_MM_dd.
  rewrite Hday. split; reflexivity.
Qed.

(** Between 0001-01-01 and 9999-12-31 the date part of the key names one
    day only. *)
Lemma key_names_one_day (t1 t2 : Z) (f : Fueltype) :
  firstDay <= dayOf t1 <= lastDay ->
  firstDay <= dayOf t2 <= lastDay ->
  deriveKey API_URL (DateAt t1) f = deriveKey API_URL (DateAt t2) f ->
  dayOf t1 = dayOf t2.
Proof.
  intros Hr1 Hr2 Hkey.
  destruct (parse_format_midnight t1 InvalidDate Hr1) as (s1 & Hf1 & Hp1).
  destruct (parse_format_midnight t2 InvalidDate Hr2) as (s2 & Hf2 & Hp2).
  unfold deriveKey in Hkey. rewrite Hf1, Hf2 in Hkey.
  injection Hkey as Hs. subst s2. rewrite Hp1 in Hp2.
  injection Hp2 as Hmid. unfold msPerDay in Hmid. lia.
Qed.

(** Outside that range it may name two: the [y] formatter prints the year
    0 like the year 1. *)
Lemma key_of_year_zero :
  format_yyyy_MM_dd (DateAt (dayOfCivil 0 12 31 * msPerDay))
  = format_yyyy_MM_dd (DateAt (dayOfCivil 1 12 31 * msPerDay)).
Proof. vm_compute. reflexivity. Qed.

(** Without a [now] in the query the initial date is local midnight of the
    clock's day. *)
Lemma initial_date_is_today (clock : Z) :
  firstDay <= dayOf clock <= lastDay ->
  getInitialDate None clock = Ok (DateAt (dayOf clock * msPerDay))
  /\ notAfter clock
       {| priceChangeState := None;
          now := DateAt (dayOf clock * msPerDay);
          nowParam := formatCivil (civilOfDay (dayOf clock)) |}.
Proof.
  intros Hrange. split.
  - unfold getInitialDate, newDate.
    destruct (parse_format_midnight clock (DateAt clock) Hrange)
      as (s & Hf & Hp).
    rewrite Hf, Hp. reflexivity.
  - eexists. split; [reflexivity |]. cbn. rewrite dayOf_midnight. lia.
Qed.

(** A step forward from the clock's own day is rejected. *)
Lemma forward_from_today_is_noop (clock t : Z) (st : HomeState) :
  now st = DateAt t ->
  dayOf t = dayOf clock ->
  changeDate DirRight clock st = st.
Proof.
  intros Hnow Hday. apply changeDate_rejected. rewrite Hnow.
  apply forward_from_today_future. exact Hday.
Qed.

(** No event moves a reference date that is not after the clock's day past
    the day of any later clock reading, and none raises from such a
    state. *)
Lemma step_keeps_notAfter (e : Event Fueltype) (pg : Page Fueltype)
    (clock : Z) :
  notAfter clock (hooks pg) ->
  (forall c, clockOf e = Some c -> c <= clock) ->
  exists pg', step e pg = Ok pg' /\ notAfter clock (hooks pg').
Proof.
  intros (t & Hnow & Hday) Hclock.
  destruct e as [day | direction c | f | a | r]; cbn [step].
  - destruct (error (swr pg)).
    + eexists. split; [reflexivity |]. exists t. auto.
    + eexists. split; [reflexivity |]. cbn [hooks].
      unfold clickSlot, PriceDisplay_onClick.
      destruct (hasPriceChanged _); [| exists t; auto].
      unfold toggleDisplayChanges.
      destruct (toggle_keeps_date
                  (slotPrevPrices (data (swr pg)) day) day (hooks pg))
        as [Hsame _].
      exists t. rewrite Hsame. auto.
  - specialize (Hclock c eq_refl).
    assert (Hc : dayOf t <= dayOf c \/ dayOf c < dayOf t) by lia.
    destruct (isFuture c (newNowOf direction (now (hooks pg)))) eqn:Hfut;
      cbn [negb].
    + eexists. split; [reflexivity |]. exists t. auto.
    + rewrite (changeDate_accepted _ _ _ Hfut). unfold nowEffect.
      rewrite Hnow in *.
      destruct direction; cbn in Hfut |- *;
        (eexists; split; [reflexivity |]); cbn;
        (eexists; split; [reflexivity |]).
      * rewrite dayOf_add. lia.
      * apply Z.ltb_ge in Hfut. apply dayOf_le. lia.
  - destruct (decide (f = fueltype (props pg)));
      (eexists; split; [reflexivity |]); exists t; auto.
  - eexists. split; [reflexivity |]. exists t. auto.
  - eexists. split; [reflexivity |]. exists t. auto.
Qed.

Lemma run_keeps_notAfter (events : list (Event Fueltype))
    (pg0 : Page Fueltype) (clock : Z) :
  notAfter clock (hooks pg0) ->
  Forall (fun e => forall c, clockOf e = Some c -> c <= clock) events ->
  exists pg, run events pg0 = Ok pg /\ notAfter clock (hooks pg).
Proof.
  intros Hinv Hclocks. revert pg0 Hinv.
  induction Hclocks as [| e rest He _ IH]; intros pg0 Hinv.
  - exists pg0. cbn. auto.
  - destruct (step_keeps_notAfter e pg0 clock Hinv He)
      as (pg1 & Hstep & Hinv1).
    destruct (IH pg1 Hinv1) as (pg & Hrun & Hfinal).
    exists pg. cbn [run]. rewrite Hstep. auto.
Qed.

(** Mounted without a [now] in the query, the page keeps its reference date
    at or before the clock's day through any events. *)
Lemma no_future_without_override (p : Props Fueltype) (clock0 clock : Z)
    (events : list (Event Fueltype)) :
  firstDay <= dayOf clock0 <= lastDay ->
  clock0 <= clock ->
  Forall (fun e => forall c, clockOf e = Some c -> c <= clock) events ->
  exists pg0 pg,
    mount p None clock0 = Ok pg0
    /\ run events pg0 = Ok pg
    /\ notAfter clock (hooks pg).
Proof.
  intros Hrange Hle Hclocks.
  destruct (initial_date_is_today clock0 Hrange) as [Hinit _].
  assert (Hmount : exists pg0, mount p None clock0 = Ok pg0
                               /\ notAfter clock (hooks pg0)).
  { unfold mount. rewrite Hinit. cbn.
    eexists. split; [reflexivity |]. cbn.
    eexists. split; [reflexivity |]. rewrite dayOf_midnight.
    apply dayOf_le. exact Hle. }
  destruct Hmount as (pg0 & Hmount & Hinv).
  destruct (run_keeps_notAfter events pg0 clock Hinv Hclocks)
    as (pg & Hrun & Hfinal).
  exists pg0, pg. auto.
Qed.

(** C3, on the code: an override that [parse] cannot read is not replaced
    by the current date. [getInitialDate] returns the invalid date, and the
    first render raises a [RangeError] when it formats it. *)
Theorem malformed_override_raises (p : Props Fueltype) (s : string)
    (clock : Z) :
  parse_yyyy_MM_dd s (newDate clock) = InvalidDate ->
  getInitialDate (Some s) clock = Ok InvalidDate
  /\ mount p (Some s) clock = Throw (RangeError "Invalid time value").
Proof.
  intros Hbad. unfold mount, getInitialDate. rewrite Hbad.
  split; reflexivity.
Qed.

(** The date part of the key follows the reference date. *)
Lemma step_keeps_sync (e : Event Fueltype) (pg pg' : Page Fueltype) :
  format_yyyy_MM_dd (now (hooks pg)) = Ok (nowParam (hooks pg)) ->
  step e pg = Ok pg' ->
  format_yyyy_MM_dd (now (hooks pg')) = Ok (nowParam (hooks pg')).
Proof.
  intros Hsync Hstep.
  destruct e as [day | direction c | f | a | r]; cbn [step] in Hstep.
  - destruct (error (swr pg)); injection Hstep as <-; [exact Hsync |].
    cbn [hooks]. unfold clickSlot, PriceDisplay_onClick.
    destruct (hasPriceChanged _); [| exact Hsync].
    unfold toggleDisplayChanges.
    destruct (toggle_keeps_date
                (slotPrevPrices (data (swr pg)) day) day (hooks pg))
      as [Hnow Hparam].
    rewrite Hnow, Hparam. exact Hsync.
  - destruct (isFuture c (newNowOf direction (now (hooks pg)))) eqn:Hfut;
      cbn [negb] in Hstep.
    + injection Hstep as <-. exact Hsync.
    + rewrite (changeDate_accepted _ _ _ Hfut) in Hstep.
      unfold nowEffect in Hstep. cbn in Hstep.
      destruct (format_yyyy_MM_dd (newNowOf direction (now (hooks pg))))
        eqn:Hformat; [| discriminate].
      injection Hstep as <-. cbn. exact Hformat.
  - destruct (decide (f = fueltype (props pg)));
      injection Hstep as <-; exact Hsync.
  - injection Hstep as <-. exact Hsync.
  - injection Hstep as <-. exact Hsync.
Qed.

Lemma run_keeps_sync (events : list (Event Fueltype))
    (pg pg' : Page Fueltype) :
  format_yyyy_MM_dd (now (hooks pg)) = Ok (nowParam (hooks pg)) ->
  run events pg = Ok pg' ->
  format_yyyy_MM_dd (now (hooks pg')) = Ok (nowParam (hooks pg')).
Proof.
  revert pg. induction events as [| e rest IH]; intros pg Hsync Hrun.
  - injection Hrun as <-. exact Hsync.
  - cbn [run] in Hrun. destruct (step e pg) as [pg1 |] eqn:Hstep;
      [| discriminate].
    apply (IH pg1); [| exact Hrun].
    apply (step_keeps_sync e pg pg1 Hsync Hstep).
Qed.

(** In every state the page can reach, the key given to [useSWR] is the
    key derived from the reference date and the fuel type. *)
Lemma reachable_key (pg : Page Fueltype) :
  reachable pg ->
  deriveKey API_URL (now (hooks pg)) (fueltype (props pg))
  = Ok (swrKey API_URL (props pg) (hooks pg)).
Proof.
  intros (p & nowQuery & clock & events & pg0 & Hmount & Hrun).
  assert (Hsync0 : format_yyyy_MM_dd (now (hooks pg0))
                   = Ok (nowParam (hooks pg0))).
  { unfold mount in Hmount.
    destruct (getInitialDate nowQuery clock) as [d |]; [| discriminate].
    destruct (format_yyyy_MM_dd d) as [param |] eqn:Hformat;
      [| discriminate].
    unfold nowEffect, fueltypeEffect in Hmount. cbn in Hmount.
    rewrite Hformat in Hmount. injection Hmount as <-. cbn. exact Hformat. }
  pose proof (run_keeps_sync events pg0 pg Hsync0 Hrun) as Hsync.
  unfold deriveKey, swrKey. rewrite Hsync. reflexivity.
Qed.

End ReferenceDate.

(** ** The properties on the concrete page *)

(** C1, on the code: the guard against future dates is in [changeDate]
    only. With [now=2999-01-01] in the query and the clock at 2024-03-10,
    [getInitialDate] returns 2999-01-01 as it is, the page mounts on it, so
    a reachable state has a reference date after the clock's day, and both
    arrows are rejected there. *)
Theorem future_override_is_taken :
  let future := DateAt (dayOfCivil 2999 1 1 * msPerDay) in
  getInitialDate (Some "2999-01-01"%string) Scenario.clock = Ok future
  /\ isFuture Scenario.clock future = true
  /\ dayOf Scenario.clock < dayOfCivil 2999 1 1
  /\ exists pg,
       mount Scenario.homeProps (Some "2999-01-01"%string) Scenario.clock
       = Ok pg
       /\ reachable pg
       /\ now (hooks pg) = future
       /\ step (ChangeDate DirLeft Scenario.clock) pg = Ok pg
       /\ step (ChangeDate DirRight Scenario.clock) pg = Ok pg.
Proof.
  cbv zeta. split; [vm_compute; reflexivity |].
  split; [vm_compute; reflexivity |].
  split; [vm_compute; reflexivity |].
  eexists. split; [vm_compute; reflexivity |].
  split.
  - exists Scenario.homeProps, (Some "2999-01-01"%string), Scenario.clock,
      [].
    eexists. split; [vm_compute; reflexivity | reflexivity].
  - split; [reflexivity |]. split; vm_compute; reflexivity.
Qed.

Lemma toggle_transitions_witness :
  trackerState
    (toggleShowPriceChange [] Today (hooks Scenario.expanded)) = None
  /\ trackerState
       (toggleShowPriceChange [] Yesterday (hooks Scenario.expanded))
     = Some Yesterday
  /\ toggleShowPriceChange []
       Today
       (toggleShowPriceChange (prevPrices Scenario.todayPrice) Today
          Scenario.collapsed)
     = Scenario.collapsed.
Proof.
  split; [| split].
  - apply (toggle_transitions [] [] Today (hooks Scenario.expanded)).
    reflexivity.
  - apply (toggle_transitions [] [] Yesterday (hooks Scenario.expanded)).
    right. exists Today. split; [reflexivity | discriminate].
  - apply (toggle_transitions (prevPrices Scenario.todayPrice) [] Today
             Scenario.collapsed).
    reflexivity.
Defined.

Lemma reset_on_context_change_witness :
  (exists pg',
     step (SetFueltype "Diesel"%string) Scenario.expanded = Ok pg'
     /\ trackerState (hooks pg') = None)
  /\ (exists pg',
        step (ChangeDate DirLeft Scenario.clock) Scenario.expanded = Ok pg'
        /\ trackerState (hooks pg') = None).
Proof.
  split.
  - eexists. split; [reflexivity |].
    apply (proj1 (reset_on_context_change Scenario.expanded)
             (SetFueltype "Diesel"%string)).
    + reflexivity.
    + left. cbn. discriminate.
  - eexists. split; [vm_compute; reflexivity |].
    apply (proj1 (reset_on_context_change Scenario.expanded)
             (ChangeDate DirLeft Scenario.clock)).
    + vm_compute. reflexivity.
    + right. cbn. discriminate.
Defined.

(** C5 as stated fails: called for the yesterday slot, whose [prevPrices] is
    empty, [toggleShowPriceChange] expands the slot. *)
Lemma toggle_accepts_empty_history :
  slotPrevPrices (Some Scenario.response) Yesterday = []
  /\ toggleShowPriceChange
       (slotPrevPrices (Some Scenario.response) Yesterday) Yesterday
       Scenario.collapsed
     = {| priceChangeState :=
            Some {| pcs_prevPrices := []; pcs_day := Yesterday |};
          now := now Scenario.collapsed;
          nowParam := nowParam Scenario.collapsed |}
  /\ trackerState
       (toggleShowPriceChange
          (slotPrevPrices (Some Scenario.response) Yesterday) Yesterday
          Scenario.collapsed)
     <> trackerState Scenario.collapsed.
Proof.
  split; [reflexivity |]. split; [reflexivity |]. cbn. discriminate.
Qed.

Lemma empty_history_guard_witness :
  clickSlot (Some Scenario.response) Yesterday Scenario.collapsed
  = Scenario.collapsed
  /\ priceChangeState (toggleShowPriceChange [] Yesterday Scenario.collapsed)
     = Some {| pcs_prevPrices := []; pcs_day := Yesterday |}
  /\ priceChangeState
       (toggleShowPriceChange [] Today (hooks Scenario.expanded)) = None.
Proof.
  split; [| split].
  - apply (empty_history_guard_is_in_click (Some Scenario.response)
             Yesterday Scenario.collapsed).
    reflexivity.
  - apply (empty_history_guard_is_in_click None Yesterday
             Scenario.collapsed).
    cbn. discriminate.
  - apply (empty_history_guard_is_in_click None Today
             (hooks Scenario.expanded)).
    reflexivity.
Defined.

Lemma key_determinism_witness :
  deriveKey Scenario.apiUrl (DateAt 1710028800000) "E10"%string
  = deriveKey Scenario.apiUrl (DateAt Scenario.clock) "E10"%string
  /\ deriveKey Scenario.apiUrl (DateAt 1710028800000) "E10"%string
     = Ok (Scenario.apiUrl,
           formatCivil (civilOfDay (dayOf 1710028800000)), "E10"%string).
Proof.
  apply (key_determinism Scenario.apiUrl 1710028800000 Scenario.clock
           "E10"%string).
  vm_compute. reflexivity.
Defined.

Lemma malformed_override_witness :
  getInitialDate (Some "abc"%string) Scenario.clock = Ok InvalidDate
  /\ mount Scenario.homeProps (Some "abc"%string) Scenario.clock
     = Throw (RangeError "Invalid time value").
Proof.
  apply (malformed_override_raises Scenario.homeProps "abc"%string
           Scenario.clock).
  reflexivity.
Defined.

Lemma backward_step_witness :
  changeDate DirLeft Scenario.clock (hooks Scenario.expanded)
  = {| priceChangeState := None;
       now := DateAt (1710028800000 - msPerDay);
       nowParam := nowParam (hooks Scenario.expanded) |}
  /\ dayOf (1710028800000 - msPerDay) = dayOf 1710028800000 - 1
  /\ exists pg',
       step (ChangeDate DirLeft Scenario.clock) Scenario.expanded = Ok pg'
       /\ now (hooks pg') = DateAt (1710028800000 - msPerDay)
       /\ priceChangeState (hooks pg') = None.
Proof.
  apply (backward_step_succeeds Scenario.expanded 1710028800000
           Scenario.clock).
  - reflexivity.
  - vm_compute. discriminate.
Defined.

Lemma null_slot_placeholder_witness :
  pd_priceText
    (PriceDisplay false (slotPrice (Some Scenario.response) Tomorrow)
       Tomorrow (isActive Scenario.collapsed Tomorrow))
  = inr "??.??"%string
  /\ clickSlot (Some Scenario.response) Tomorrow Scenario.collapsed
     = Scenario.collapsed
  /\ exists v,
       Home_render Scenario.showStamp
         {| data := Some Scenario.response; error := None |}
         Scenario.collapsed = Ok v
       /\ hv_slot v Tomorrow
          = Some (PriceDisplay false
                    (slotPrice (Some Scenario.response) Tomorrow)
                    Tomorrow (isActive Scenario.collapsed Tomorrow)).
Proof.
  pose proof (null_slot_placeholder Scenario.showStamp Scenario.response
                Tomorrow Scenario.collapsed eq_refl)
    as (Htext & _ & _ & _ & _ & _ & Hclick & Hrender).
  split; [exact Htext |]. split; [exact Hclick |].
  apply (Hrender 1710028800000); reflexivity.
Defined.

Lemma expanded_panel_witness :
  exists pg1 pg2,
    step (Click Today) Scenario.loaded = Ok pg1
    /\ run (map SwrResult
              [ {| data := None; error := None |};
                {| data := Some Scenario.laterResponse; error := None |} ])
         pg1 = Ok pg2
    /\ priceChangeState (hooks pg1)
       = Some {| pcs_prevPrices :=
                   slotPrevPrices (data (swr Scenario.loaded)) Today;
                 pcs_day := Today |}
    /\ hooks pg2 = hooks pg1
    /\ (error (swr pg2) = None ->
        result_map hv_panel
          (Home_render Scenario.showStamp (swr pg2) (hooks pg2))
        = result_map Some
            (PriceChange Scenario.showStamp
               (slotPrevPrices (data (swr Scenario.loaded)) Today) Today)).
Proof.
  apply (expanded_panel_is_snapshot Scenario.showStamp Scenario.loaded Today
           _ 1710028800000).
  - reflexivity.
  - reflexivity.
  - reflexivity.
  - cbn. discriminate.
Defined.

Lemma at_most_one_fetch_witness :
  let key := swrKey Scenario.apiUrl Scenario.homeProps Scenario.collapsed in
  let other := (Scenario.apiUrl, "2024-03-09"%string, "E10"%string) in
  let ops : list (@PriceRecordStore.Op _ PriceResponse Exception) :=
    [ PriceRecordStore.Resolve key; PriceRecordStore.Resolve other;
      PriceRecordStore.Resolve key;
      PriceRecordStore.Settle other (inl Scenario.response);
      PriceRecordStore.Resolve key ] in
  let empty :=
    {| PriceRecordStore.entries := ∅; PriceRecordStore.fetches := [] |} in
  PriceRecordStore.fetchCount key (PriceRecordStore.execAll ops empty) = 1%nat.
Proof.
  cbv zeta.
  refine (proj1 (at_most_one_fetch _ _ _ _ _ _)).
  - reflexivity.
  - vm_compute. reflexivity.
  - vm_compute. reflexivity.
Defined.

(** ** The model on the scenario of the specification *)

Example format_example :
  format_yyyy_MM_dd (DateAt Scenario.clock) = Ok "2024-03-10"%string
  /\ format_eee_dd_LLL_yyyy (DateAt Scenario.clock)
     = Ok "Sun 10 Mar 2024"%string.
Proof. split; vm_compute; reflexivity. Qed.

Example parse_examples :
  parse_yyyy_MM_dd "2024-03-10" (newDate Scenario.clock)
  = DateAt 1710028800000
  /\ parse_yyyy_MM_dd "2024-3-1" (newDate Scenario.clock)
     = DateAt (dayOfCivil 2024 3 1 * msPerDay)
  /\ parse_yyyy_MM_dd "2023-02-29" (newDate Scenario.clock) = InvalidDate
  /\ parse_yyyy_MM_dd "" (newDate Scenario.clock) = InvalidDate
  /\ parse_yyyy_MM_dd "10.03.2024" (newDate Scenario.clock) = InvalidDate.
Proof. repeat split; vm_compute; reflexivity. Qed.

(** The page of the scenario is one the component reaches: mounted on
    2024-03-10 without an override, then the response arrives, then the
    today slot is clicked. *)
Example scenario_reachable :
  mount Scenario.homeProps None Scenario.clock
  = Ok {| props := Scenario.homeProps; hooks := Scenario.collapsed;
          swr := {| data := None; error := None |};
          pushed := [Scenario.firstQuery] |}
  /\ reachable Scenario.loaded
  /\ reachable Scenario.expanded.
Proof.
  split; [vm_compute; reflexivity |]. split.
  - exists Scenario.homeProps, None, Scenario.clock,
      [SwrResult {| data := Some Scenario.response; error := None |}].
    eexists. split; vm_compute; reflexivity.
  - exists Scenario.homeProps, None, Scenario.clock,
      [SwrResult {| data := Some Scenario.response; error := None |};
       Click Today].
    eexists. split; vm_compute; reflexivity.
Qed.

(** The today slot carries the marker and is clickable, the yesterday slot
    is not; a click on today opens a table of one row, a second click
    closes it; a step to the day before closes it too and gives the key of
    2024-03-09; a step to the next day is rejected at 10:00 of
    2024-03-10. *)
Example scenario_walk :
  pd_marker (PriceDisplay false (Some Scenario.todayPrice) Today false)
  = true
  /\ pd_marker (PriceDisplay false (Some Scenario.yesterdayPrice)
                  Yesterday false) = false
  /\ step (Click Today) Scenario.loaded = Ok Scenario.expanded
  /\ result_map hv_panel
       (Home_render Scenario.showStamp (swr Scenario.expanded)
          (hooks Scenario.expanded))
     = Ok (Some {| pc_rows :=
                     [ {| row_key := "2024-03-10T08:00:00Z";
                          row_detectedAt := "2024-03-10T08:00:00Z";
                          row_priceBefore := 21.75%float |} ] |})
  /\ step (Click Today) Scenario.expanded = Ok Scenario.loaded
  /\ step (Click Yesterday) Scenario.loaded = Ok Scenario.loaded
  /\ result_map (fun pg => (trackerState (hooks pg),
                            swrKey Scenario.apiUrl (props pg) (hooks pg)))
       (step (ChangeDate DirLeft Scenario.clock) Scenario.expanded)
     = Ok (None, (Scenario.apiUrl, "2024-03-09"%string, "E10"%string))
  /\ step (ChangeDate DirRight Scenario.clock) Scenario.expanded
     = Ok Scenario.expanded.
Proof. repeat split; vm_compute; reflexivity. Qed.

(** ** Further properties on the concrete page *)

Lemma no_future_without_override_witness :
  exists pg0 pg,
    mount Scenario.homeProps None Scenario.clock = Ok pg0
    /\ run [ ChangeDate DirRight Scenario.clock;
             ChangeDate DirLeft Scenario.clock;
             Click Today;
             ChangeDate DirRight (Scenario.clock + 60000) ] pg0 = Ok pg
    /\ notAfter (Scenario.clock + 60000) (hooks pg).
Proof.
  apply (no_future_without_override Scenario.homeProps Scenario.clock
           (Scenario.clock + 60000)).
  - vm_compute. split; discriminate.
  - vm_compute. discriminate.
  - repeat constructor; cbn; intros c Hc; try discriminate;
      injection Hc as <-; vm_compute; discriminate.
Defined.

Lemma forward_from_today_witness :
  changeDate DirRight Scenario.clock (hooks Scenario.expanded)
  = hooks Scenario.expanded.
Proof.
  apply (forward_from_today_is_noop Scenario.clock 1710028800000).
  - reflexivity.
  - vm_compute. reflexivity.
Defined.

Lemma key_names_one_day_witness :
  dayOf 1710028800000 = dayOf Scenario.clock.
Proof.
  apply (key_names_one_day Scenario.apiUrl 1710028800000 Scenario.clock
           "E10"%string).
  - vm_compute. split; discriminate.
  - vm_compute. split; discriminate.
  - vm_compute. reflexivity.
Defined.

Lemma reachable_key_witness :
  deriveKey Scenario.apiUrl (now (hooks Scenario.expanded))
    (fueltype (props Scenario.expanded))
  = Ok (swrKey Scenario.apiUrl (props Scenario.expanded)
          (hooks Scenario.expanded)).
Proof.
  apply (reachable_key Scenario.apiUrl Scenario.expanded).
  exists Scenario.homeProps, None, Scenario.clock,
    [SwrResult {| data := Some Scenario.response; error := None |};
     Click Today].
  eexists. split; vm_compute; reflexivity.
Defined.

(** ** What [parse] accepts *)

Section ParseBounds.

Lemma digitValue_bound (c : ascii) :
  isDigit c = true -> 0 <= digitValue c <= 9.
Proof.
  unfold isDigit, digitValue. cbv zeta. intros Hc.
  apply andb_prop in Hc as [Hlo Hhi].
  apply Z.leb_le in Hlo. apply Z.leb_le in Hhi. lia.
Qed.

Lemma takeDigits_bound (n : nat) :
  forall (acc : Z) (s : string),
    0 <= acc ->
    acc <= fst (takeDigits n acc s) < (acc + 1) * 10 ^ Z.of_nat n.
Proof.
  induction n as [| n IH]; intros acc s Hacc.
  - cbn. lia.
  - destruct s as [| c rest].
    + cbn [takeDigits fst]. 
      assert (0 < 10 ^ Z.of_nat (S n)) by (apply Z.pow_pos_nonneg; lia). nia.
    + cbn [takeDigits]. destruct (isDigit c) eqn:Hc.
      * pose proof (digitValue_bound c Hc) as Hd.
        specialize (IH (10 * acc + digitValue c) rest ltac:(lia)).
        rewrite Nat2Z.inj_succ, Z.pow_succ_r by lia.
        assert (0 < 10 ^ Z.of_nat n) by (apply Z.pow_pos_nonneg; lia).
        nia.
      * cbn [fst].
        assert (0 < 10 ^ Z.of_nat (S n)) by (apply Z.pow_pos_nonneg; lia). nia.
Qed.

Lemma parseNDigits_bound (n : nat) (s rest : string) (v : Z) :
  parseNDigits n s = Some (v, rest) -> 0 <= v < 10 ^ Z.of_nat n.
Proof.
  unfold parseNDigits. destruct n as [| n]; [discriminate |].
  destruct s as [| c s']; [discriminate |].
  pose proof (takeDigits_bound (S n) 0 (String c s') ltac:(lia)) as Hb.
  destruct (isDigit c) eqn:Hc; [| discriminate].
  intros Hsome.
  assert (Hfst : fst (takeDigits (S n) 0 (String c s')) = v).
  { injection Hsome as Hsome. cbn [takeDigits]. rewrite Hc.
    cbn [takeDigits] in Hsome. rewrite ?Hc in Hsome. rewrite Hsome.
    reflexivity. }
  rewrite Hfst in Hb. lia.
Qed.

(** What [parse] accepts: a date that passes the validators, of a year up
    to 9999; the result is local midnight of that date. *)
Lemma parse_accepts (s : string) (referenceDate : Date) (t : Z) :
  parse_yyyy_MM_dd s referenceDate = DateAt t ->
  exists y m d,
    validCivil y m d = true /\ 1 <= y <= 9999
    /\ t = dayOfCivil y m d * msPerDay.
Proof.
  unfold parse_yyyy_MM_dd. intros Hparse.
  destruct (parseNDigits 4 s) as [[y s1] |] eqn:Hy; [| discriminate].
  destruct (cutToken "-" s1) as [s2 |]; [| discriminate].
  destruct (parseNDigits 2 s2) as [[m s3] |]; [| discriminate].
  destruct (cutToken "-" s3) as [s4 |]; [| discriminate].
  destruct (parseNDigits 2 s4) as [[d s5] |]; [| discriminate].
  destruct (onlyWhitespace s5 && validCivil y m d) eqn:Hok; [| discriminate].
  apply andb_prop in Hok as [_ Hvalid].
  injection Hparse as <-. exists y, m, d.
  split; [exact Hvalid |]. split; [| reflexivity].
  apply parseNDigits_bound in Hy. change (10 ^ Z.of_nat 4) with 10000 in Hy.
  unfold validCivil in Hvalid.
  apply andb_prop in Hvalid as [Hvalid _].
  apply andb_prop in Hvalid as [Hpos _]. apply Z.ltb_lt in Hpos. lia.
Qed.

Ltac split_comparisons :=
  repeat match goal with
         | |- context [Z.ltb ?a ?b] => destruct (Z.ltb_spec a b)
         | |- context [Z.leb ?a ?b] => destruct (Z.leb_spec a b)
         | |- context [Z.eqb ?a ?b] => destruct (Z.eqb_spec a b)
         end.

Lemma validCivil_bounds (y m d : Z) :
  validCivil y m d = true ->
  1 <= y /\ 1 <= m <= 12 /\ 1 <= d <= monthLength (isLeapYearIndex y) m.
Proof.
  unfold validCivil. intros Hvalid.
  apply andb_prop in Hvalid as [Hvalid Hd].
  apply andb_prop in Hvalid as [Hy Hm].
  apply andb_prop in Hm as [Hm1 Hm2]. apply andb_prop in Hd as [Hd1 Hd2].
  apply Z.ltb_lt in Hy. apply Z.leb_le in Hm1, Hm2, Hd1, Hd2.
  assert (Hm : 1 <= m <= 12) by lia.
  rewrite (daysInMonth_monthLength y m Hm) in Hd2. lia.
Qed.

Lemma dayOfCivil_range (y m d : Z) :
  1 <= y <= 9999 -> 1 <= m <= 12 -> 1 <= d <= 31 ->
  firstDay <= dayOfCivil y m d <= lastDay.
Proof.
  intros Hy Hm Hd. unfold firstDay, lastDay, dayOfCivil. cbv zeta.
  split_comparisons.
  all: Z.div_mod_to_equations; lia.
Qed.

End ParseBounds.

(** ** From a calendar date to its day and back *)

Section CivilInverse.

Ltac split_comparisons :=
  repeat match goal with
         | |- context [Z.ltb ?a ?b] => destruct (Z.ltb_spec a b)
         | |- context [Z.leb ?a ?b] => destruct (Z.leb_spec a b)
         | |- context [Z.eqb ?a ?b] => destruct (Z.eqb_spec a b)
         end.

Lemma dayOfCivil_shift (y m d k : Z) :
  dayOfCivil (y + 400 * k) m d = dayOfCivil y m d + 146097 * k.
Proof.
  unfold dayOfCivil. cbv zeta. split_comparisons.
  all: Z.div_mod_to_equations; lia.
Qed.

Lemma civilOfDay_shift (n k : Z) :
  civilOfDay (n + 146097 * k)
  = let '(y, m, d) := civilOfDay n in (y + 400 * k, m, d).
Proof.
  unfold civilOfDay. cbv zeta.
  replace ((n + 146097 * k + 719468) / 146097)
    with ((n + 719468) / 146097 + k)
    by (Z.div_mod_to_equations; lia).
  replace ((n + 146097 * k + 719468) mod 146097)
    with ((n + 719468) mod 146097)
    by (Z.div_mod_to_equations; lia).
  destruct (_ <=? 2); f_equal; f_equal; lia.
Qed.

Lemma isLeapYearIndex_shift (y k : Z) :
  isLeapYearIndex (y + 400 * k) = isLeapYearIndex y.
Proof.
  unfold isLeapYearIndex.
  replace ((y + 400 * k) mod 400) with (y mod 400)
    by (Z.div_mod_to_equations; lia).
  replace ((y + 400 * k) mod 4) with (y mod 4)
    by (Z.div_mod_to_equations; lia).
  replace ((y + 400 * k) mod 100) with (y mod 100)
    by (Z.div_mod_to_equations; lia).
  reflexivity.
Qed.

Lemma cycle_checked :
  forallb cycleBackOk (map (fun i => 0 + Z.of_nat i) (seq 0 (Z.to_nat 400)))
  = true.
Proof. vm_cast_no_check (eq_refl true). Qed.

Lemma civilOfDay_dayOfCivil (y m d : Z) :
  1 <= m <= 12 ->
  1 <= d <= monthLength (isLeapYearIndex y) m ->
  civilOfDay (dayOfCivil y m d) = (y, m, d).
Proof.
  intros Hm Hd.
  pose proof (Z.div_mod y 400 ltac:(lia)) as Hy.
  pose proof (Z.mod_pos_bound y 400 ltac:(lia)) as Hr.
  set (r := y mod 400) in *. set (k := y / 400) in *.
  assert (Hyr : y = r + 400 * k) by lia.
  rewrite Hyr in Hd |- *. rewrite isLeapYearIndex_shift in Hd.
  rewrite dayOfCivil_shift, civilOfDay_shift.
  pose proof (monthLength_le_31 (isLeapYearIndex r) m) as H31.
  pose proof (forallb_range cycleBackOk 0 400 r cycle_checked ltac:(lia))
    as Hcycle.
  unfold cycleBackOk in Hcycle.
  pose proof (forallb_range _ 1 12 m Hcycle ltac:(lia)) as Hmonth.
  cbv beta in Hmonth.
  pose proof (forallb_range _ 1 31 d Hmonth ltac:(lia)) as Hday.
  unfold civilBackOk in Hday.
  replace ((1 <=? d) && (d <=? monthLength (isLeapYearIndex r) m))
    with true in Hday
    by (symmetry; apply andb_true_intro; split; apply Z.leb_le; lia).
  cbn [negb orb] in Hday.
  destruct (civilOfDay (dayOfCivil r m d)) as [[y' m'] d'].
  apply andb_prop in Hday as [Hday Hd'].
  apply andb_prop in Hday as [Hy' Hm'].
  apply Z.eqb_eq in Hy', Hm', Hd'. rewrite Hy', Hm', Hd'. reflexivity.
Qed.

End CivilInverse.

(** ** The strings [parse] reads *)

Section Grammar.

Context {Fueltype : Type} `{EqDecision Fueltype}.

Lemma takeDigits_prefix (s : string) :
  forall (n : nat) (acc : Z) (rest : string),
    digitsOnly s = true ->
    (String.length s <= n)%nat ->
    startsWithDigit rest = false ->
    takeDigits n acc (s +:+ rest) = (decimalValue acc s, rest).
Proof.
  induction s as [| c s IH]; intros n acc rest Hdigits Hlen Hstop.
  - rewrite append_empty_l. cbn [decimalValue].
    destruct n as [| n]; [reflexivity |].
    destruct rest as [| c rest]; [reflexivity |].
    cbn in Hstop. cbn [takeDigits]. rewrite Hstop. reflexivity.
  - cbn in Hdigits. apply andb_prop in Hdigits as [Hc Hs].
    cbn [String.length] in Hlen.
    destruct n as [| n]; [lia |].
    rewrite append_cons. cbn [takeDigits decimalValue]. rewrite Hc.
    apply IH; [exact Hs | lia | exact Hstop].
Qed.

Lemma parseNDigits_run (width : nat) (s rest : string) :
  digitRun width s ->
  startsWithDigit rest = false ->
  parseNDigits width (s +:+ rest) = Some (decimalValue 0 s, rest).
Proof.
  intros [Hdigits Hlen] Hstop.
  pose proof (takeDigits_prefix s width 0 rest Hdigits ltac:(lia) Hstop)
    as Htake.
  destruct s as [| c s']; [cbn in Hlen; lia |].
  destruct width as [| w]; [lia |].
  cbn in Hdigits. apply andb_prop in Hdigits as [Hc _].
  unfold parseNDigits. rewrite append_cons in *. rewrite Hc, Htake.
  reflexivity.
Qed.

Lemma whitespace_not_digit (c : ascii) :
  isWhitespace c = true -> isDigit c = false.
Proof.
  unfold isWhitespace, isDigit. cbv zeta. intros Hws.
  apply andb_false_iff.
  apply orb_prop in Hws as [Hsp | Hctl].
  - apply Nat.eqb_eq in Hsp. left. apply Z.leb_gt. lia.
  - apply andb_prop in Hctl as [_ Hhi]. apply Nat.leb_le in Hhi.
    left. apply Z.leb_gt. lia.
Qed.

Lemma onlyWhitespace_stop (ws : string) :
  onlyWhitespace ws = true -> startsWithDigit ws = false.
Proof.
  destruct ws as [| c rest]; [reflexivity |].
  cbn. intros Hws. apply andb_prop in Hws as [Hc _].
  apply whitespace_not_digit. exact Hc.
Qed.

Lemma parse_runs (sy sm sd ws : string) (referenceDate : Date) :
  digitRun 4 sy -> digitRun 2 sm -> digitRun 2 sd ->
  onlyWhitespace ws = true ->
  parse_yyyy_MM_dd (sy +:+ "-" +:+ sm +:+ "-" +:+ sd +:+ ws) referenceDate
  = if validCivil (decimalValue 0 sy) (decimalValue 0 sm) (decimalValue 0 sd)
    then DateAt (dayOfCivil (decimalValue 0 sy) (decimalValue 0 sm)
                   (decimalValue 0 sd) * msPerDay)
    else InvalidDate.
Proof.
  intros Hy Hm Hd Hws. unfold parse_yyyy_MM_dd.
  rewrite (parseNDigits_run 4 sy) by (first [exact Hy | reflexivity]).
  rewrite append_cons, append_empty_l. cbn [cutToken Ascii.eqb Bool.eqb].
  rewrite (parseNDigits_run 2 sm) by (first [exact Hm | reflexivity]).
  rewrite append_cons, append_empty_l. cbn [cutToken Ascii.eqb Bool.eqb].
  rewrite (parseNDigits_run 2 sd)
    by (first [exact Hd | apply onlyWhitespace_stop; exact Hws]).
  rewrite Hws. cbn [andb]. reflexivity.
Qed.

End Grammar.

(** ** The override and the first render *)

Section Overrides.

Context {Fueltype : Type} `{EqDecision Fueltype}.

(** What a successful first render leaves behind. *)
Lemma mount_inv (p : Props Fueltype) (nowQuery : option string)
    (clock : Z) (pg : Page Fueltype) :
  mount p nowQuery clock = Ok pg ->
  exists t,
    getInitialDate nowQuery clock = Ok (DateAt t)
    /\ pg = {| props := p;
               hooks := {| priceChangeState := None; now := DateAt t;
                           nowParam := formatCivil (civilOfDay (dayOf t)) |};
               swr := {| data := None; error := None |};
               pushed := [queryOf (appearance p)
                            (formatCivil (civilOfDay (dayOf t)))] |}.
Proof.
  unfold mount. intros Hmount.
  destruct (getInitialDate nowQuery clock) as [[| t] |];
    cbn in Hmount; try discriminate.
  injection Hmount as <-. exists t. split; reflexivity.
Qed.

Lemma mount_on (p : Props Fueltype) (nowQuery : option string)
    (clock t : Z) :
  getInitialDate nowQuery clock = Ok (DateAt t) ->
  mount p nowQuery clock
  = Ok {| props := p;
          hooks := {| priceChangeState := None; now := DateAt t;
                      nowParam := formatCivil (civilOfDay (dayOf t)) |};
          swr := {| data := None; error := None |};
          pushed := [queryOf (appearance p)
                       (formatCivil (civilOfDay (dayOf t)))] |}.
Proof. unfold mount. intros ->. reflexivity. Qed.

Lemma validCivil_day (y m d : Z) :
  validCivil y m d = true ->
  1 <= y <= 9999 ->
  firstDay <= dayOfCivil y m d <= lastDay
  /\ civilOfDay (dayOfCivil y m d) = (y, m, d).
Proof.
  intros Hvalid Hy.
  destruct (validCivil_bounds y m d Hvalid) as (_ & Hm & Hd).
  pose proof (monthLength_le_31 (isLeapYearIndex y) m) as H31.
  split.
  - apply dayOfCivil_range; lia.
  - apply civilOfDay_dayOfCivil; assumption.
Qed.

Lemma parse_formatted_day (t : Z) (referenceDate : Date) :
  firstDay <= dayOf t <= lastDay ->
  parse_yyyy_MM_dd (formatCivil (civilOfDay (dayOf t))) referenceDate
  = DateAt (dayOf t * msPerDay).
Proof.
  intros Hrange.
  destruct (parse_format_midnight t referenceDate Hrange)
    as (param & Hformat & Hagain).
  unfold format_yyyy_MM_dd in Hformat.
  assert (Hparam : param = formatCivil (civilOfDay (dayOf t)))
    by congruence.
  rewrite <- Hparam. exact Hagain.
Qed.


(** X6: the page mounted on such an override of a real date carries the
    date in its canonical form: [nowParam] and the query pushed to the
    router are the numbers read, zero-padded to yyyy-MM-dd, and reading that
    form again gives the same reference date. *)
Theorem override_is_normalised (p : Props Fueltype) (sy sm sd ws : string)
    (clock : Z) :
  digitRun 4 sy -> digitRun 2 sm -> digitRun 2 sd ->
  onlyWhitespace ws = true ->
  validCivil (decimalValue 0 sy) (decimalValue 0 sm) (decimalValue 0 sd)
  = true ->
  let canonical :=
    formatCivil (decimalValue 0 sy, decimalValue 0 sm, decimalValue 0 sd) in
  exists pg,
    mount p (Some (sy +:+ "-" +:+ sm +:+ "-" +:+ sd +:+ ws)%string) clock
    = Ok pg
    /\ nowParam (hooks pg) = canonical
    /\ pushed pg = [queryOf (appearance p) canonical]
    /\ parse_yyyy_MM_dd canonical (newDate clock) = now (hooks pg).
Proof.
  intros Hy Hm Hd Hws Hvalid canonical.
  pose proof (parse_runs sy sm sd ws (newDate clock) Hy Hm Hd Hws) as Hparse.
  rewrite Hvalid in Hparse.
  set (y := decimalValue 0 sy) in *. set (m := decimalValue 0 sm) in *.
  set (d := decimalValue 0 sd) in *.
  assert (Hyear : 1 <= y <= 9999).
  { destruct (parse_accepts _ _ _ Hparse) as (y' & m' & d' & Hv' & Hy' & Ht).
    destruct (validCivil_bounds y m d Hvalid) as (Hpos & _ & _).
    destruct Hy as [Hdigits Hlen].
    pose proof (takeDigits_bound 4 0 (sy +:+ "") ltac:(lia)) as Hb.
    rewrite (takeDigits_prefix sy 4 0 "" Hdigits ltac:(lia) eq_refl) in Hb.
    cbn [fst] in Hb. change (10 ^ Z.of_nat 4) with 10000 in Hb.
    fold y in Hb. lia. }
  destruct (validCivil_day y m d Hvalid Hyear) as [Hrange Hback].
  destruct (validCivil_bounds y m d Hvalid) as (_ & Hmonth & Hday).
  pose proof (monthLength_le_31 (isLeapYearIndex y) m) as H31.
  eexists. split.
  { apply mount_on. unfold getInitialDate. rewrite Hparse. reflexivity. }
  cbn [hooks nowParam pushed now]. rewrite dayOf_midnight, Hback.
  split; [reflexivity |]. split; [reflexivity |].
  apply parse_formatCivil; [lia | lia | lia | exact Hvalid].
Qed.

(** X7: a page that mounted on an override mounts to the very same page
    when it is opened again with the [now] it wrote to the router, at any
    clock. *)
Theorem reload_after_mount (p : Props Fueltype) (s : string)
    (clock clock' : Z) (pg : Page Fueltype) :
  mount p (Some s) clock = Ok pg ->
  mount p (Some (nowParam (hooks pg))) clock' = Ok pg.
Proof.
  intros Hmount.
  destruct (mount_inv p (Some s) clock pg Hmount) as (t & Hinit & ->).
  cbn [hooks nowParam].
  unfold getInitialDate in Hinit. injection Hinit as Hparse.
  destruct (parse_accepts _ _ _ Hparse) as (y & m & d & Hvalid & Hy & ->).
  destruct (validCivil_day y m d Hvalid Hy) as [Hrange Hback].
  apply mount_on. unfold getInitialDate.
  rewrite parse_formatted_day by (rewrite dayOf_midnight; exact Hrange).
  rewrite dayOf_midnight. reflexivity.
Qed.

Lemma initial_date_midnight (nowQuery : option string) (clock t : Z) :
  getInitialDate nowQuery clock = Ok (DateAt t) ->
  exists n, t = n * msPerDay /\ firstDay <= n <= lastDay.
Proof.
  unfold getInitialDate. intros Hinit.
  assert (Hparse : exists s, parse_yyyy_MM_dd s (newDate clock) = DateAt t).
  { destruct nowQuery as [s |].
    - exists s. congruence.
    - destruct (format_yyyy_MM_dd (newDate clock)) as [s |];
        [| discriminate].
      exists s. congruence. }
  destruct Hparse as (s & Hparse).
  destruct (parse_accepts _ _ _ Hparse) as (y & m & d & Hvalid & Hy & ->).
  destruct (validCivil_day y m d Hvalid Hy) as [Hrange _].
  exists (dayOfCivil y m d). split; [reflexivity | exact Hrange].
Qed.


End Overrides.

(** ** What every mounted page keeps *)

Section PageInvariant.

Context {Fueltype : Type} `{EqDecision Fueltype}.

Lemma newNowOf_days (direction : Direction) (t : Z) :
  newNowOf direction (DateAt t)
  = DateAt (t + directionDays direction * msPerDay).
Proof. destruct direction; reflexivity. Qed.

Lemma isFuture_midnight (clock n : Z) :
  isFuture clock (DateAt (n * msPerDay)) = bool_decide (dayOf clock < n).
Proof.
  cbn [isFuture]. pose proof (dayOf_spec clock) as Hclock.
  unfold msPerDay in *.
  destruct (Z.ltb_spec clock (n * 86400000)) as [Hlt | Hge];
    symmetry; [apply bool_decide_eq_true | apply bool_decide_eq_false]; nia.
Qed.

Lemma queryOf_noEmptyColor (a : Appearance) (param : string) :
  noEmptyColor (queryOf a param).
Proof.
  unfold noEmptyColor, queryOf, truthy. cbn.
  split.
  - destruct (bgColor a) as [s |]; [| discriminate].
    destruct (String.eqb_spec s ""); [discriminate | congruence].
  - destruct (textColor a) as [s |]; [| discriminate].
    destruct (String.eqb_spec s ""); [discriminate | congruence].
Qed.

(** What an event does to a page with a valid reference date. *)
Lemma step_cases (e : Event Fueltype) (pg pg' : Page Fueltype) (t : Z) :
  now (hooks pg) = DateAt t ->
  step e pg = Ok pg' ->
  (now (hooks pg') = now (hooks pg)
   /\ nowParam (hooks pg') = nowParam (hooks pg)
   /\ pushed pg' = pushed pg
   /\ forall direction clock,
        e = ChangeDate direction clock ->
        isFuture clock (newNowOf direction (DateAt t)) = true /\ pg' = pg)
  \/ (exists direction clock,
        e = ChangeDate direction clock
        /\ isFuture clock (newNowOf direction (DateAt t)) = false
        /\ pg' = {| props := props pg;
                    hooks :=
                      {| priceChangeState := None;
                         now := newNowOf direction (DateAt t);
                         nowParam :=
                           formatCivil
                             (civilOfDay
                                (dayOf (t + directionDays direction
                                            * msPerDay))) |};
                    swr := swr pg;
                    pushed :=
                      queryOf (appearance (props pg))
                        (formatCivil
                           (civilOfDay
                              (dayOf (t + directionDays direction
                                          * msPerDay))))
                      :: pushed pg |}).
Proof.
  intros Hnow Hstep.
  assert (Hother : forall pg0 : Page Fueltype,
             (forall direction clock, e <> ChangeDate direction clock) ->
             forall direction clock,
               e = ChangeDate direction clock ->
               isFuture clock (newNowOf direction (DateAt t)) = true
               /\ pg0 = pg).
  { intros pg0 Hne direction clock Heq. destruct (Hne _ _ Heq). }
  destruct e as [day | direction c | f | a | r]; cbn [step] in Hstep.
  - left. destruct (error (swr pg)); injection Hstep as <-.
    + repeat split; try reflexivity; discriminate.
    + cbn [hooks pushed]. unfold clickSlot, PriceDisplay_onClick.
      destruct (hasPriceChanged _);
        [| repeat split; try reflexivity; discriminate].
      unfold toggleDisplayChanges.
      destruct (toggle_keeps_date
                  (slotPrevPrices (data (swr pg)) day) day (hooks pg))
        as [Hsame Hparam].
      rewrite Hsame, Hparam. repeat split; try reflexivity; discriminate.
  - rewrite Hnow in Hstep.
    destruct (isFuture c (newNowOf direction (DateAt t))) eqn:Hfut;
      cbn [negb] in Hstep.
    + left. injection Hstep as <-.
      split; [reflexivity |]. split; [reflexivity |].
      split; [reflexivity |].
      intros direction' clock' Heq. injection Heq as <- <-.
      split; [exact Hfut | reflexivity].
    + right. exists direction, c. split; [reflexivity |].
      split; [exact Hfut |].
      rewrite changeDate_accepted in Hstep
        by (rewrite Hnow; exact Hfut).
      rewrite Hnow in Hstep. unfold nowEffect in Hstep.
      cbn [now] in Hstep. rewrite newNowOf_days in Hstep.
      cbn [format_yyyy_MM_dd priceChangeState nowParam] in Hstep.
      injection Hstep as <-.
      rewrite newNowOf_days. reflexivity.
  - left. destruct (decide (f = fueltype (props pg)));
      injection Hstep as <-; repeat split; try reflexivity; discriminate.
  - left. injection Hstep as <-.
    repeat split; try reflexivity; discriminate.
  - left. injection Hstep as <-.
    repeat split; try reflexivity; discriminate.
Qed.

Lemma mount_pageInv (p : Props Fueltype) (nowQuery : option string)
    (clock : Z) (pg : Page Fueltype) :
  mount p nowQuery clock = Ok pg ->
  pageInv pg.
Proof.
  intros Hmount.
  destruct (mount_inv p nowQuery clock pg Hmount) as (t & Hinit & ->).
  destruct (initial_date_midnight nowQuery clock t Hinit) as (n & -> & _).
  unfold pageInv. cbn [hooks now nowParam pushed].
  rewrite dayOf_midnight. split; [| split].
  - exists n. split; reflexivity.
  - eexists. eexists. split; reflexivity.
  - constructor; [apply queryOf_noEmptyColor | constructor].
Qed.

Lemma step_pageInv (e : Event Fueltype) (pg pg' : Page Fueltype) :
  pageInv pg -> step e pg = Ok pg' -> pageInv pg'.
Proof.
  intros ((n & Hnow & Hparam) & (q & rest & Hpushed & Hq) & Hcolors) Hstep.
  destruct (step_cases e pg pg' (n * msPerDay) Hnow Hstep)
    as [(Hnow' & Hparam' & Hpushed' & _)
       | (direction & c & -> & Hfut & ->)].
  - unfold pageInv. rewrite Hnow', Hparam', Hpushed'.
    split; [exists n; auto |]. split; [exists q, rest; auto | exact Hcolors].
  - unfold pageInv. cbn [hooks now nowParam pushed].
    rewrite newNowOf_days.
    replace (n * msPerDay + directionDays direction * msPerDay)
      with ((n + directionDays direction) * msPerDay) by lia.
    rewrite dayOf_midnight. split; [| split].
    + exists (n + directionDays direction). split; reflexivity.
    + eexists. eexists. split; reflexivity.
    + constructor; [apply queryOf_noEmptyColor | exact Hcolors].
Qed.

Lemma run_pageInv (events : list (Event Fueltype))
    (pg pg' : Page Fueltype) :
  pageInv pg -> run events pg = Ok pg' -> pageInv pg'.
Proof.
  revert pg. induction events as [| e rest IH]; intros pg Hinv Hrun.
  - injection Hrun as <-. exact Hinv.
  - cbn [run] in Hrun. destruct (step e pg) as [pg1 |] eqn:Hstep;
      [| discriminate].
    apply (IH pg1); [| exact Hrun].
    apply (step_pageInv e pg pg1 Hinv Hstep).
Qed.

Lemma reachable_pageInv (pg : Page Fueltype) : reachable pg -> pageInv pg.
Proof.
  intros (p & nowQuery & clock & events & pg0 & Hmount & Hrun).
  apply (run_pageInv events pg0 pg); [| exact Hrun].
  apply (mount_pageInv p nowQuery clock pg0 Hmount).
Qed.

End PageInvariant.

(** ** Date steps and the router *)

Section Steps.

Context {Fueltype : Type} `{EqDecision Fueltype}.
Variable API_URL : string.

Lemma accepted_step_page (direction : Direction) (clock t : Z)
    (pg : Page Fueltype) :
  now (hooks pg) = DateAt t ->
  isFuture clock (newNowOf direction (DateAt t)) = false ->
  let param :=
    formatCivil
      (civilOfDay (dayOf (t + directionDays direction * msPerDay))) in
  step (ChangeDate direction clock) pg
  = Ok {| props := props pg;
          hooks := {| priceChangeState := None;
                      now := DateAt (t + directionDays direction * msPerDay);
                      nowParam := param |};
          swr := swr pg;
          pushed := queryOf (appearance (props pg)) param :: pushed pg |}.
Proof.
  intros Hnow Hfut param.
  destruct (accepted_step_resets direction clock t pg Hnow Hfut)
    as (pg1 & Hstep & _).
  destruct (step_cases (ChangeDate direction clock) pg pg1 t Hnow Hstep)
    as [(_ & _ & _ & Hrej) | (direction' & c' & Heq & _ & Hpg1)].
  - destruct (Hrej direction clock eq_refl) as [Habs _]. congruence.
  - injection Heq as <- <-. rewrite Hstep, Hpg1.
    rewrite newNowOf_days. reflexivity.
Qed.


(** X10: on a reference date at local midnight of day [n], the guard of
    [changeDate], which compares time values, is a comparison of calendar
    days: the step is taken exactly when the new day is not after the
    clock's day, and then clears the tracker; otherwise the state stays as
    it is. *)
Theorem guard_compares_days (direction : Direction) (clock n : Z)
    (st : HomeState) :
  now st = DateAt (n * msPerDay) ->
  changeDate direction clock st
  = if bool_decide (n + directionDays direction <= dayOf clock)
    then {| priceChangeState := None;
            now := DateAt ((n + directionDays direction) * msPerDay);
            nowParam := nowParam st |}
    else st.
Proof.
  intros Hnow. unfold changeDate. rewrite Hnow, newNowOf_days.
  replace (n * msPerDay + directionDays direction * msPerDay)
    with ((n + directionDays direction) * msPerDay) by lia.
  rewrite isFuture_midnight.
  destruct (decide (n + directionDays direction <= dayOf clock)) as [Hle | Hgt].
  - rewrite (bool_decide_eq_true_2 _ Hle).
    rewrite bool_decide_eq_false_2 by lia. reflexivity.
  - rewrite (bool_decide_eq_false_2 _ Hgt).
    rewrite bool_decide_eq_true_2 by lia. reflexivity.
Qed.


(** X12: steps to the left are never blocked: from a valid reference date
    that is at most one day ahead of every clock reading, any number of
    them go through, each moving the date back one day and pushing once to
    the router. *)
Theorem steps_back_never_blocked (clocks : list Z) :
  forall (pg : Page Fueltype) (t : Z),
    now (hooks pg) = DateAt t ->
    Forall (fun c => t - msPerDay <= c) clocks ->
    exists pg',
      run (map (ChangeDate DirLeft) clocks) pg = Ok pg'
      /\ now (hooks pg')
         = DateAt (t - Z.of_nat (length clocks) * msPerDay)
      /\ length (pushed pg') = (length (pushed pg) + length clocks)%nat.
Proof.
  induction clocks as [| c rest IH]; intros pg t Hnow Hclocks.
  - exists pg. cbn. rewrite Hnow. repeat split; [f_equal; lia | lia].
  - inversion Hclocks as [| c' rest' Hc Hrest]; subst.
    assert (Hleft : isFuture c (newNowOf DirLeft (DateAt t)) = false).
    { rewrite newNowOf_days. cbn. apply Z.ltb_ge. lia. }
    pose proof (accepted_step_page DirLeft c t pg Hnow Hleft) as Hstep.
    cbv zeta in Hstep.
    set (pg1 := {| props := props pg; hooks := _; swr := swr pg;
                   pushed := _ |}) in Hstep.
    destruct (IH pg1 (t + directionDays DirLeft * msPerDay) eq_refl)
      as (pg' & Hrun & Hnow' & Hlen).
    { eapply Forall_impl; [exact Hrest |]. cbn.
      intros c' Hc'. unfold msPerDay in *. lia. }
    exists pg'. cbn [map run]. rewrite Hstep.
    split; [exact Hrun |]. split.
    + rewrite Hnow'. f_equal. cbn [length directionDays]. lia.
    + rewrite Hlen. cbn [pushed length pg1]. lia.
Qed.

(** X13: the reference date stays at or before the clock's day through
    any events also when the page mounted on an override, provided the
    override was not in the future at that time. *)
Theorem no_future_with_past_override (p : Props Fueltype) (s : string)
    (clock0 clock : Z) (events : list (Event Fueltype))
    (pg0 : Page Fueltype) :
  mount p (Some s) clock0 = Ok pg0 ->
  isFuture clock0 (now (hooks pg0)) = false ->
  clock0 <= clock ->
  Forall (fun e => forall c, clockOf e = Some c -> c <= clock) events ->
  exists pg, run events pg0 = Ok pg /\ notAfter clock (hooks pg).
Proof.
  intros Hmount Hpast Hle Hclocks.
  destruct (mount_inv p (Some s) clock0 pg0 Hmount) as (t & _ & Hpg0).
  apply run_keeps_notAfter; [| exact Hclocks].
  rewrite Hpg0 in Hpast |- *. cbn in Hpast |- *.
  exists t. split; [reflexivity |].
  apply Z.ltb_ge in Hpast. apply dayOf_le. lia.
Qed.

(** X14: in every state the page reaches, the latest push to the router
    carries the current [nowParam], and no push ever carries an empty
    colour: an absent or empty [bgColor] or [textColor] is left out. *)
Theorem router_follows_state (pg : Page Fueltype) :
  reachable pg ->
  (exists q rest, pushed pg = q :: rest /\ q_now q = nowParam (hooks pg))
  /\ Forall noEmptyColor (pushed pg).
Proof.
  intros Hreach.
  destruct (reachable_pageInv pg Hreach) as (_ & Hhead & Hcolors).
  split; assumption.
Qed.

(** X15: only navigation changes what is fetched or pushed. If an event
    leaves the page with another [useSWR] key or another router history, it
    was a change to a different fuel type (which pushes nothing) or a date
    step that [changeDate] accepted; clicks, appearance changes, fetch
    results and rejected steps change neither. *)
Theorem key_changes_only_by_navigation (e : Event Fueltype)
    (pg pg' : Page Fueltype) (t : Z) :
  now (hooks pg) = DateAt t ->
  step e pg = Ok pg' ->
  swrKey API_URL (props pg') (hooks pg') <> swrKey API_URL (props pg) (hooks pg)
  \/ pushed pg' <> pushed pg ->
  (exists f, e = SetFueltype f /\ f <> fueltype (props pg)
             /\ pushed pg' = pushed pg)
  \/ (exists direction clock,
        e = ChangeDate direction clock
        /\ isFuture clock (newNowOf direction (DateAt t)) = false).
Proof.
  intros Hnow Hstep Hchanged.
  destruct (step_cases e pg pg' t Hnow Hstep)
    as [(Hnow' & Hparam' & Hpushed' & _)
       | (direction & c & -> & Hfut & _)].
  - destruct Hchanged as [Hkey | Hpush]; [| contradiction].
    left. unfold swrKey in Hkey. rewrite Hparam' in Hkey.
    destruct e as [day | direction c | f | a | r]; cbn [step] in Hstep.
    + destruct (error (swr pg)); injection Hstep as <-;
        exfalso; apply Hkey; reflexivity.
    + destruct (negb _).
      * destruct (nowEffect _ _) as [[q st'] |]; [| discriminate].
        injection Hstep as <-. exfalso. apply Hkey. reflexivity.
      * injection Hstep as <-. exfalso. apply Hkey. reflexivity.
    + exists f. split; [reflexivity |]. split; [| exact Hpushed'].
      destruct (decide (f = fueltype (props pg))) as [-> | Hne];
        injection Hstep as <-; [| exact Hne].
      exfalso. apply Hkey. reflexivity.
    + injection Hstep as <-. exfalso. apply Hkey. reflexivity.
    + injection Hstep as <-. exfalso. apply Hkey. reflexivity.
  - right. exists direction, c. split; [reflexivity | exact Hfut].
Qed.


End Steps.

(** ** The rendered page *)

Section View.

Context {Fueltype : Type} `{EqDecision Fueltype}.
Variable formatTimestamp : string -> result string.

Lemma PriceChange_rows_ok (history : list PrevPrice) :
  forall rows,
    PriceChange_rows formatTimestamp history = Ok rows ->
    map row_key rows = map detectionTimestamp history
    /\ map row_priceBefore rows = map prevPrice history
    /\ Forall2 (fun p row =>
                  formatTimestamp (detectionTimestamp p)
                  = Ok (row_detectedAt row)) history rows.
Proof.
  induction history as [| p rest IH]; intros rows Hrows.
  - injection Hrows as <-. repeat split; constructor.
  - cbn [PriceChange_rows] in Hrows.
    destruct (formatTimestamp (detectionTimestamp p)) as [shown |] eqn:Hp;
      [| discriminate].
    destruct (PriceChange_rows formatTimestamp rest) as [rows' |];
      [| discriminate].
    injection Hrows as <-. destruct (IH rows' eq_refl) as (Hk & Hv & Hs).
    cbn. rewrite Hk, Hv. repeat split. constructor; assumption.
Qed.

Lemma PriceChange_rows_throw (history : list PrevPrice) (e : Exception) :
  PriceChange_rows formatTimestamp history = Throw e ->
  exists before p after,
    history = before ++ p :: after
    /\ formatTimestamp (detectionTimestamp p) = Throw e
    /\ Forall (fun p' => exists shown,
                 formatTimestamp (detectionTimestamp p') = Ok shown) before.
Proof.
  induction history as [| p rest IH]; intros Hrows; [discriminate |].
  cbn [PriceChange_rows] in Hrows.
  destruct (formatTimestamp (detectionTimestamp p)) as [shown | e'] eqn:Hp.
  - destruct (PriceChange_rows formatTimestamp rest) as [rows' | e''];
      [discriminate |].
    injection Hrows as ->. destruct (IH eq_refl) as (b & q & a & -> & Hq & Hb).
    exists (p :: b), q, a. split; [reflexivity |]. split; [exact Hq |].
    constructor; [exists shown; exact Hp | exact Hb].
  - injection Hrows as ->. exists [], p, rest.
    split; [reflexivity |]. split; [exact Hp | constructor].
Qed.

Lemma PriceChange_rows_total (history : list PrevPrice) :
  Forall (fun p => exists shown,
            formatTimestamp (detectionTimestamp p) = Ok shown) history ->
  exists rows, PriceChange_rows formatTimestamp history = Ok rows.
Proof.
  induction 1 as [| p rest (shown & Hp) _ (rows & IH)].
  - exists []. reflexivity.
  - cbn [PriceChange_rows]. rewrite Hp, IH. eexists. reflexivity.
Qed.

(** X17: the history table has one row per previous price, in order, with
    the time stamp as key, the formatted stamp and the price before the
    change; it raises exactly the error of the first stamp that cannot be
    formatted, and raises nothing when all stamps can. *)
Theorem history_table_rows (history : list PrevPrice) (day : DayKind) :
  (forall v,
     PriceChange formatTimestamp history day = Ok v ->
     map row_key (pc_rows v) = map detectionTimestamp history
     /\ map row_priceBefore (pc_rows v) = map prevPrice history
     /\ Forall2 (fun p row =>
                   formatTimestamp (detectionTimestamp p)
                   = Ok (row_detectedAt row)) history (pc_rows v))
  /\ (forall e,
        PriceChange formatTimestamp history day = Throw e ->
        exists before p after,
          history = before ++ p :: after
          /\ formatTimestamp (detectionTimestamp p) = Throw e
          /\ Forall (fun p' => exists shown,
                       formatTimestamp (detectionTimestamp p') = Ok shown)
               before)
  /\ (Forall (fun p => exists shown,
                formatTimestamp (detectionTimestamp p) = Ok shown) history ->
      exists v, PriceChange formatTimestamp history day = Ok v).
Proof.
  unfold PriceChange. split; [| split].
  - intros v Hv.
    destruct (PriceChange_rows formatTimestamp history) as [rows |] eqn:Hrows;
      [| discriminate].
    injection Hv as <-. apply PriceChange_rows_ok. exact Hrows.
  - intros e He.
    destruct (PriceChange_rows formatTimestamp history) as [rows | e'] eqn:Hrows;
      [discriminate |].
    injection He as ->. apply PriceChange_rows_throw. exact Hrows.
  - intros Hall. destruct (PriceChange_rows_total history Hall) as (rows & ->).
    eexists. reflexivity.
Qed.

(** X18: what a successful render shows. With an error: the notice, no
    slots and no table. Without: no notice; a slot has the active style
    exactly when it is the expanded one, so at most one has it; every slot
    pulses exactly while there is no data; and the table is there exactly
    when a slot is expanded, built from the stored history. *)
Theorem panel_matches_tracker (r : SWRResponse) (st : HomeState)
    (v : HomeView) :
  Home_render formatTimestamp r st = Ok v ->
  match error r with
  | Some _ =>
      hv_errorNotice v = true /\ hv_slots v = None /\ hv_panel v = None
  | None =>
      hv_errorNotice v = false
      /\ (forall day,
            pd_activeStyle <$> hv_slot v day
            = Some (bool_decide (trackerState st = Some day)))
      /\ (forall day,
            pd_animatePulse <$> hv_slot v day
            = Some (bool_decide (data r = None)))
      /\ match priceChangeState st with
         | None => hv_panel v = None
         | Some pcs =>
             exists panel,
               hv_panel v = Some panel
               /\ PriceChange formatTimestamp (pcs_prevPrices pcs)
                    (pcs_day pcs) = Ok panel
         end
  end.
Proof.
  unfold Home_render. intros Hrender.
  destruct (format_eee_dd_LLL_yyyy (now st)) as [header |]; [| discriminate].
  destruct (error r) as [err |].
  - injection Hrender as <-. repeat split.
  - destruct (priceChangeState st) as [pcs |] eqn:Hpcs.
    + destruct (PriceChange formatTimestamp (pcs_prevPrices pcs) (pcs_day pcs))
        as [panel |] eqn:Hpanel; [| discriminate].
      injection Hrender as <-. cbn [hv_errorNotice hv_panel].
      split; [reflexivity |]. split; [| split].
      * intros day. unfold hv_slot, isActive, trackerState. cbn.
        rewrite Hpcs. destruct day; reflexivity.
      * intros day. unfold hv_slot. cbn.
        destruct (data r); destruct day; reflexivity.
      * exists panel. split; first [reflexivity | exact Hpanel].
    + injection Hrender as <-. cbn [hv_errorNotice hv_panel].
      split; [reflexivity |]. split; [| split].
      * intros day. unfold hv_slot, isActive, trackerState. cbn.
        rewrite Hpcs. destruct day; reflexivity.
      * intros day. unfold hv_slot. cbn.
        destruct (data r); destruct day; reflexivity.
      * reflexivity.
Qed.

(** X19: on a valid reference date the render raises only for a stored
    time stamp that cannot be formatted: then there is no fetch error, a
    slot is expanded, and the error is that of one of its stored stamps. *)
Theorem render_raises_only_on_stamp (r : SWRResponse) (st : HomeState)
    (t : Z) (e : Exception) :
  now st = DateAt t ->
  Home_render formatTimestamp r st = Throw e ->
  error r = None
  /\ exists pcs p,
       priceChangeState st = Some pcs
       /\ In p (pcs_prevPrices pcs)
       /\ formatTimestamp (detectionTimestamp p) = Throw e.
Proof.
  intros Hnow Hrender. unfold Home_render in Hrender. rewrite Hnow in Hrender.
  destruct (format_header_valid t) as [header Hheader].
  rewrite Hheader in Hrender.
  destruct (error r); [discriminate |]. split; [reflexivity |].
  destruct (priceChangeState st) as [pcs |]; [| discriminate].
  exists pcs. unfold PriceChange in Hrender.
  destruct (PriceChange_rows formatTimestamp (pcs_prevPrices pcs))
    as [rows | e'] eqn:Hrows; [discriminate |].
  injection Hrender as ->.
  destruct (PriceChange_rows_throw _ _ Hrows) as (b & p & a & Hsplit & Hp & _).
  exists p. split; [reflexivity |]. split; [| exact Hp].
  rewrite Hsplit. apply in_or_app. right. left. reflexivity.
Qed.

(** X20: a click on a slot changes the state exactly when the slot shows
    the pointer cursor (and with it the marker, the title and the button
    role): a toggle never leaves the tracker as it was. *)
Theorem click_acts_iff_pointer (swrData : option PriceResponse)
    (day : DayKind) (st : HomeState) (loading active : bool) :
  clickSlot swrData day st <> st
  <-> pd_cursorPointer
        (PriceDisplay loading (slotPrice swrData day) day active) = true.
Proof.
  unfold clickSlot, PriceDisplay_onClick. cbn [PriceDisplay pd_cursorPointer].
  destruct (hasPriceChanged (slotPrice swrData day)).
  - split; [reflexivity |]. intros _ Heq.
    apply (f_equal priceChangeState) in Heq.
    unfold toggleDisplayChanges, toggleShowPriceChange in Heq.
    destruct (decide (pcs_day <$> priceChangeState st = Some day))
      as [Hsame | Hother]; cbn in Heq.
    + rewrite <- Heq in Hsame. discriminate.
    + apply Hother. rewrite <- Heq. reflexivity.
  - split; [intros Hne; contradiction | discriminate].
Qed.

End View.

(** ** The request of [fetcher] *)

Section Fetcher.

Context {Fueltype : Type}.
Variable fueltypeText : Fueltype -> string.

Lemma append_same_length (s1 s2 r1 r2 : string) :
  String.length s1 = String.length s2 ->
  (s1 +:+ r1)%string = (s2 +:+ r2)%string ->
  s1 = s2 /\ r1 = r2.
Proof.
  revert s2. induction s1 as [| c s1 IH]; intros [| c2 s2] Hlen Heq;
    cbn in Hlen; try discriminate.
  - rewrite !append_empty_l in Heq. auto.
  - rewrite !append_cons in Heq. injection Heq as -> Heq.
    destruct (IH s2 ltac:(lia) Heq) as [-> ->]. auto.
Qed.

Lemma append_length (s1 s2 : string) :
  String.length (s1 +:+ s2)
  = (String.length s1 + String.length s2)%nat.
Proof.
  induction s1 as [| c s1 IH]; [reflexivity |].
  rewrite append_cons. cbn [String.length]. rewrite IH. reflexivity.
Qed.

Lemma paddedOk_length (width : nat) (n : Z) :
  paddedOk width n = true -> String.length (addLeadingZeros n width) = width.
Proof.
  unfold paddedOk. cbv zeta. intros Hok.
  apply andb_prop in Hok as [Hok _]. apply andb_prop in Hok as [_ Hlen].
  apply Nat.eqb_eq in Hlen. exact Hlen.
Qed.

Lemma formatted_day_length (n : Z) :
  firstDay <= n <= lastDay ->
  String.length (formatCivil (civilOfDay n)) = 10%nat.
Proof.
  intros Hrange. pose proof (civilOfDay_valid n Hrange) as Hvalid.
  destruct (civilOfDay n) as [[y m] d].
  destruct Hvalid as (_ & Hy & Hm & Hd).
  unfold formatCivil, formatYear.
  replace (0 <? y) with true by (symmetry; apply Z.ltb_lt; lia).
  rewrite !append_length.
  rewrite (paddedOk_length 4 y) by (apply paddedOk_year; lia).
  rewrite (paddedOk_length 2 m) by (apply paddedOk_two; lia).
  rewrite (paddedOk_length 2 d) by (apply paddedOk_two; lia).
  reflexivity.
Qed.

(** X21: the request [fetcher] makes does not depend on its first
    argument and tells the keys apart: for days between 0001-01-01 and
    9999-12-31 and a fuel type printed injectively, two requests to the
    same address are for the same day and fuel type. *)
Theorem fetcher_separates_keys (url1 url2 : string) (n1 n2 : Z)
    (f1 f2 : Fueltype) :
  (forall a b, fueltypeText a = fueltypeText b -> a = b) ->
  firstDay <= n1 <= lastDay ->
  firstDay <= n2 <= lastDay ->
  fetcher fueltypeText url1 (formatCivil (civilOfDay n1)) f1
  = fetcher fueltypeText url2 (formatCivil (civilOfDay n2)) f2 ->
  n1 = n2 /\ f1 = f2.
Proof.
  intros Hinj Hr1 Hr2 Hreq. unfold fetcher in Hreq.
  apply (String.app_inj "/api/prices?now=") in Hreq.
  apply append_same_length in Hreq as [Hday Htype];
    [| rewrite !formatted_day_length by assumption; reflexivity].
  apply (String.app_inj "&type=") in Htype.
  split; [| apply Hinj; exact Htype].
  pose proof (parse_formatted_day (n1 * msPerDay) InvalidDate) as Hp1.
  pose proof (parse_formatted_day (n2 * msPerDay) InvalidDate) as Hp2.
  rewrite dayOf_midnight in Hp1, Hp2.
  rewrite Hday in Hp1. rewrite Hp1 in Hp2 by assumption.
  specialize (Hp2 Hr2). injection Hp2 as Heq.
  unfold msPerDay in Heq. lia.
Qed.

End Fetcher.

(** ** The further properties on concrete pages *)


Lemma override_is_normalised_witness :
  exists pg,
    mount Scenario.homeProps (Some "2024-3-1"%string) Scenario.clock = Ok pg
    /\ nowParam (hooks pg) = "2024-03-01"%string
    /\ pushed pg
       = [queryOf (appearance Scenario.homeProps) "2024-03-01"%string]
    /\ parse_yyyy_MM_dd "2024-03-01" (newDate Scenario.clock)
       = now (hooks pg).
Proof.
  apply (override_is_normalised Scenario.homeProps "2024" "3" "1" ""
           Scenario.clock);
    first [reflexivity | split; [reflexivity | cbn; lia]].
Defined.

Lemma reload_after_mount_witness :
  mount Scenario.homeProps (Some (nowParam (hooks Samples.lenientPage))) 0
  = Ok Samples.lenientPage.
Proof.
  apply (reload_after_mount Scenario.homeProps "2024-3-1"%string
           Scenario.clock 0 Samples.lenientPage).
  vm_compute. reflexivity.
Defined.



Lemma guard_compares_days_witness :
  changeDate DirRight Scenario.clock Scenario.collapsed = Scenario.collapsed
  /\ changeDate DirLeft Scenario.clock Scenario.collapsed
     = {| priceChangeState := None;
          now := DateAt (19791 * msPerDay);
          nowParam := nowParam Scenario.collapsed |}.
Proof.
  split.
  - apply (guard_compares_days DirRight Scenario.clock 19792
             Scenario.collapsed).
    reflexivity.
  - apply (guard_compares_days DirLeft Scenario.clock 19792
             Scenario.collapsed).
    reflexivity.
Defined.


Lemma steps_back_witness :
  exists pg',
    run (map (ChangeDate DirLeft)
           [Scenario.clock; Scenario.clock; Scenario.clock])
      Scenario.expanded = Ok pg'
    /\ now (hooks pg') = DateAt (1710028800000 - 3 * msPerDay)
    /\ length (pushed pg') = 4%nat.
Proof.
  apply (steps_back_never_blocked
           [Scenario.clock; Scenario.clock; Scenario.clock]
           Scenario.expanded 1710028800000).
  - reflexivity.
  - repeat constructor; vm_compute; discriminate.
Defined.

Lemma no_future_with_past_override_witness :
  exists pg,
    run [ChangeDate DirRight Scenario.clock; Click Today;
         ChangeDate DirLeft (Scenario.clock + 60000)]
      Samples.lenientPage = Ok pg
    /\ notAfter (Scenario.clock + 60000) (hooks pg).
Proof.
  apply (no_future_with_past_override Scenario.homeProps "2024-3-1"%string
           Scenario.clock (Scenario.clock + 60000)).
  - vm_compute. reflexivity.
  - vm_compute. reflexivity.
  - vm_compute. discriminate.
  - repeat constructor; cbn; intros c Hc; try discriminate;
      injection Hc as <-; vm_compute; discriminate.
Defined.

Lemma router_follows_state_witness :
  (exists q rest,
     pushed Scenario.expanded = q :: rest
     /\ q_now q = nowParam (hooks Scenario.expanded))
  /\ Forall noEmptyColor (pushed Scenario.expanded).
Proof.
  apply (router_follows_state Scenario.expanded).
  exact (proj2 (proj2 scenario_reachable)).
Defined.

Lemma key_changes_witness :
  (exists f,
     SetFueltype "Diesel"%string = SetFueltype f
     /\ f <> fueltype (props Scenario.expanded)
     /\ pushed Scenario.expanded = pushed Scenario.expanded)
  \/ (exists direction clock,
        SetFueltype "Diesel"%string = ChangeDate direction clock
        /\ isFuture clock (newNowOf direction (DateAt 1710028800000))
           = false).
Proof.
  apply (key_changes_only_by_navigation Scenario.apiUrl
           (SetFueltype "Diesel"%string) Scenario.expanded
           {| props := {| fueltype := "Diesel"%string;
                          appearance := appearance Scenario.homeProps |};
              hooks := fueltypeEffect (hooks Scenario.expanded);
              swr := swr Scenario.expanded;
              pushed := pushed Scenario.expanded |}
           1710028800000).
  - reflexivity.
  - reflexivity.
  - left. cbn. discriminate.
Defined.


Lemma history_table_rows_witness :
  exists v,
    PriceChange Scenario.showStamp (prevPrices Scenario.todayPrice) Today
    = Ok v.
Proof.
  apply (history_table_rows Scenario.showStamp
           (prevPrices Scenario.todayPrice) Today).
  repeat constructor; eexists; reflexivity.
Defined.

Lemma panel_matches_tracker_witness :
  exists v,
    Home_render Scenario.showStamp (swr Scenario.expanded)
      (hooks Scenario.expanded) = Ok v
    /\ hv_errorNotice v = false
    /\ (forall day,
          pd_activeStyle <$> hv_slot v day
          = Some (bool_decide
                    (trackerState (hooks Scenario.expanded) = Some day))).
Proof.
  eexists. split; [vm_compute; reflexivity |].
  pose proof (panel_matches_tracker Scenario.showStamp
                (swr Scenario.expanded) (hooks Scenario.expanded) _ eq_refl)
    as Hview.
  cbn [error swr Scenario.expanded] in Hview.
  destruct Hview as (Hnotice & Hactive & _).
  split; [exact Hnotice | exact Hactive].
Defined.

Lemma render_raises_witness :
  error {| data := Some Scenario.response; error := None |} = None
  /\ exists pcs p,
       priceChangeState Samples.brokenState = Some pcs
       /\ In p (pcs_prevPrices pcs)
       /\ Samples.strictStamp (detectionTimestamp p)
          = Throw (RangeError "Invalid time value").
Proof.
  apply (render_raises_only_on_stamp Samples.strictStamp
           {| data := Some Scenario.response; error := None |}
           Samples.brokenState 1710028800000).
  - reflexivity.
  - vm_compute. reflexivity.
Defined.

Lemma click_acts_iff_pointer_witness :
  pd_cursorPointer
    (PriceDisplay false (slotPrice (Some Scenario.response) Today) Today
       false) = true
  /\ clickSlot (Some Scenario.response) Today Scenario.collapsed
     <> Scenario.collapsed.
Proof.
  split; [reflexivity |].
  apply (click_acts_iff_pointer (Some Scenario.response) Today
           Scenario.collapsed false false).
  reflexivity.
Defined.

Lemma fetcher_separates_keys_witness :
  dayOf Scenario.clock = dayOf 1710028800000
  /\ "E10"%string = "E10"%string.
Proof.
  apply (fetcher_separates_keys (fun f : string => f)
           Scenario.apiUrl "/other"%string
           (dayOf Scenario.clock) (dayOf 1710028800000)).
  - intros a b Hab. exact Hab.
  - vm_compute. split; discriminate.
  - vm_compute. split; discriminate.
  - vm_compute. reflexivity.
Defined.
